(** * Used Vehicle Listings Dashboard: the filter-to-view callbacks of app.py

    A shallow embedding of [app.py]: the module-level names ([df],
    [min_year], [max_year], [sorted_brands], [colors], [app.layout]) and the
    three Dash callbacks [update_mileage_chart], [update_price_graph] and
    [update_table], together with the pandas and plotly express operations
    they call.

    Modelling conventions.
    - A Python [str] is a [string]; comparison of strings is by code point,
      which on the bytes of a string is [String.compare].
    - [str.lower] and the [mean] of pandas are library code that is not part
      of the application: each is a parameter of the definitions that call
      it.  [PyStr.ascii_lower] and [exact_mean] are instances on which the
      examples run.
    - The columns the code reads are typed as the code uses them:
      [model_year] is an integer, held by pandas as [numpy.int64], whose
      arithmetic wraps; [mileage] and [price] are numbers, each a rational.
    - The callbacks run in a small monad over the module-level names [df]
      and [colors] and the figure objects of the process: a figure is
      created, then changed in place by [update_layout] and [update_xaxes],
      then returned.  A computation can raise. *)

From Stdlib Require Import List String Ascii Bool ZArith QArith Lia.
From Stdlib Require Import Permutation Sorted DecimalString.
Import ListNotations.

Local Open Scope string_scope.
Local Open Scope Z_scope.

(* ------------------------------------------------------------------ *)
(** ** Python strings *)

Module PyStr.

(** [c.lower()] for one ASCII character: [A]..[Z] go to [a]..[z]. *)
Definition lower_ascii (c : ascii) : ascii :=
  let n := N_of_ascii c in
  if ((65 <=? n) && (n <=? 90))%N then ascii_of_N (n + 32) else c.

(** [s.lower()] for a string of ASCII characters.  On other strings
    [str.lower] folds more than this; the definitions below take
    [str.lower] as a parameter and only the examples use this instance. *)
Fixpoint ascii_lower (s : string) : string :=
  match s with
  | EmptyString => EmptyString
  | String c s' => String (lower_ascii c) (ascii_lower s')
  end.

(** [a <= b] on [str] *)
Definition le (a b : string) : bool := String.leb a b.

(** [str(n)] for an integer [n] *)
Definition str_of_int (n : Z) : string :=
  NilZero.string_of_int (Z.to_int n).

End PyStr.

(* ------------------------------------------------------------------ *)
(** ** Integers of numpy *)

Module Int64.

(** The value that a [numpy.int64] holds after an operation whose exact
    result is [z]: the result modulo 2^64, in [-2^63, 2^63). *)
Definition wrap (z : Z) : Z :=
  (z + 9223372036854775808) mod 18446744073709551616 - 9223372036854775808.

Definition add (a b : Z) : Z := wrap (a + b).
Definition mul (a b : Z) : Z := wrap (a * b).

(** [a // b] *)
Definition floordiv (a b : Z) : Z := wrap (a / b).

End Int64.

(* ------------------------------------------------------------------ *)
(** ** The data frame *)

(** One record of [data.csv], with the columns the callbacks read. *)
Record Row : Type := mkRow {
  brand : string;
  model : string;
  model_year : Z;
  mileage : Q;
  price : Q;
  transmission : string
}.

(** A [pandas.DataFrame]: the ordered column labels and the records in
    index order. *)
Record DataFrame : Type := mkDataFrame {
  columns : list string;
  records : list Row
}.

Module Pandas.

(** [x in values], the test behind [Series.isin(values)] *)
Definition isin (x : string) (values : list string) : bool :=
  existsb (String.eqb x) values.

(** [frame[mask]]: boolean indexing keeps the labels and the records at
    which the mask holds, in index order. *)
Definition loc (frame : DataFrame) (mask : Row -> bool) : DataFrame :=
  {| columns := columns frame; records := filter mask (records frame) |}.

(** [frame.empty] *)
Definition empty (frame : DataFrame) : bool :=
  match records frame with [] => true | _ :: _ => false end.

(** [Series.unique()]: the distinct values in order of first appearance. *)
Section Unique.
Context {A : Type} (eqb : A -> A -> bool).

Definition mem (x : A) (l : list A) : bool := existsb (eqb x) l.

Fixpoint unique_acc (seen : list A) (l : list A) : list A :=
  match l with
  | [] => []
  | x :: l' =>
      if mem x seen then unique_acc seen l'
      else x :: unique_acc (x :: seen) l'
  end.

Definition unique (l : list A) : list A := unique_acc [] l.
End Unique.

(** [Series.min()] and [Series.max()]; [None] stands for the [nan] of an
    empty series. *)
Definition series_min (s : list Z) : option Z :=
  match s with
  | [] => None
  | x :: s' => Some (fold_left Z.min s' x)
  end.

Definition series_max (s : list Z) : option Z :=
  match s with
  | [] => None
  | x :: s' => Some (fold_left Z.max s' x)
  end.

(** The key of a record under [groupby(['brand', 'transmission'])]. *)
Definition group_key (r : Row) : string * string :=
  (brand r, transmission r).

Definition key_eqb (k1 k2 : string * string) : bool :=
  String.eqb (fst k1) (fst k2) && String.eqb (snd k1) (snd k2).

(** Tuples of strings compare lexicographically. *)
Definition key_le (k1 k2 : string * string) : bool :=
  match String.compare (fst k1) (fst k2) with
  | Lt => true
  | Eq => PyStr.le (snd k1) (snd k2)
  | Gt => false
  end.

(** A stable insertion sort on a key, used for [sorted(.., key=..)] and
    for the sorted group keys of [groupby] (its default [sort=True]). *)
Section Sort.
Context {A : Type} (le : A -> A -> bool).

Fixpoint insert (x : A) (l : list A) : list A :=
  match l with
  | [] => [x]
  | y :: l' => if le x y then x :: y :: l' else y :: insert x l'
  end.

Fixpoint sort (l : list A) : list A :=
  match l with
  | [] => []
  | x :: l' => insert x (sort l')
  end.
End Sort.

(** [frame.groupby(['brand','transmission'])['mileage'].mean().reset_index()]:
    one record per group key, keys in sorted order, each with the mean of
    the group's [mileage], taken in index order.  [mean] is the float64
    mean of pandas. *)
Definition group_keys (rows : list Row) : list (string * string) :=
  sort key_le (unique key_eqb (map group_key rows)).

Definition group_rows (k : string * string) (rows : list Row) : list Row :=
  filter (fun r => key_eqb (group_key r) k) rows.

Definition groupby_mean (mean : list Q -> Q) (frame : DataFrame)
  : list (string * string * Q) :=
  map (fun k => (fst k, snd k,
                 mean (map mileage (group_rows k (records frame)))))
      (group_keys (records frame)).

End Pandas.

(** [range(lo, hi)] as a list *)
Definition py_range (lo hi : Z) : list Z :=
  map (fun i => lo + Z.of_nat i) (seq 0 (Z.to_nat (hi - lo))).

(* ------------------------------------------------------------------ *)
(** ** Exceptions *)

Inductive exn : Type := IndexError | TypeError | ValueError.

Inductive Outcome (A : Type) : Type :=
| Ok (a : A)
| Raise (e : exn).
Arguments Ok {A} a.
Arguments Raise {A} e.

(* ------------------------------------------------------------------ *)
(** ** Figures of plotly *)

Module Plotly.

(** A trace carries its columns as parallel arrays, as plotly does. *)
Inductive Trace : Type :=
| Bar (name : string) (marker_color : string)
      (x : list string) (y : list Q)
| Scatter (name : string) (marker_color : string)
          (x : list Z) (y : list Q) (customdata : list string).

(** The attributes of the layout that the callbacks set.  The position and
    font of the title are presentation only and are left out. *)
Record Figure : Type := mkFigure {
  data : list Trace;
  title_text : option string;
  xaxis_title : option string;
  yaxis_title : option string;
  showlegend : option bool;
  paper_bgcolor : option string;
  plot_bgcolor : option string;
  tickmode : option string;
  tickvals : option (list Z);
  ticktext : option (list string)
}.

(** [go.Figure()] *)
Definition go_Figure : Figure :=
  mkFigure [] None None None None None None None None None.

(** [fig.update_layout(title_text=t)] *)
Definition update_title (t : string) (fig : Figure) : Figure :=
  mkFigure (data fig) (Some t) (xaxis_title fig) (yaxis_title fig)
           (showlegend fig) (paper_bgcolor fig) (plot_bgcolor fig)
           (tickmode fig) (tickvals fig) (ticktext fig).

(** [fig.update_layout(paper_bgcolor=bg, plot_bgcolor=bg)] *)
Definition update_bgcolor (bg : string) (fig : Figure) : Figure :=
  mkFigure (data fig) (title_text fig) (xaxis_title fig) (yaxis_title fig)
           (showlegend fig) (Some bg) (Some bg)
           (tickmode fig) (tickvals fig) (ticktext fig).

(** [fig.update_layout(xaxis_title=xt, yaxis_title=yt, showlegend=b)] *)
Definition update_axes_legend (xt yt : string) (b : bool) (fig : Figure)
  : Figure :=
  mkFigure (data fig) (title_text fig) (Some xt) (Some yt) (Some b)
           (paper_bgcolor fig) (plot_bgcolor fig)
           (tickmode fig) (tickvals fig) (ticktext fig).

(** [fig.update_xaxes(tickmode='array', tickvals=vs, ticktext=ts)] *)
Definition update_xaxes (vs : list Z) (ts : list string) (fig : Figure)
  : Figure :=
  mkFigure (data fig) (title_text fig) (xaxis_title fig) (yaxis_title fig)
           (showlegend fig) (paper_bgcolor fig) (plot_bgcolor fig)
           (Some "array") (Some vs) (Some ts).

(** plotly express gives the i-th distinct value of the [color] column, in
    order of first appearance in the frame it is handed, the colour
    [sequence[i % len(sequence)]]. *)
Definition cycle (sequence : list string) (i : nat) : string :=
  nth (i mod List.length sequence) sequence EmptyString.

Definition enumerate {A : Type} (l : list A) : list (nat * A) :=
  combine (seq 0 (List.length l)) l.

(** The grid of facets: with the default spacing of 0.02 between the
    columns, plotly refuses a row of [cols] facets when 0.02 exceeds
    [1 / (cols - 1)], that is, from 52 columns on. *)
Definition too_many_facets (cols : nat) : bool := (52 <=? cols)%nat.

(** [px.bar(frame, x='brand', y='mileage', color='transmission',
            facet_col='transmission', title=t,
            labels={'mileage': yl, 'brand': xl},
            color_discrete_sequence=sequence)]:
    one trace, in a facet of its own, per distinct transmission; a
    [ValueError] when the facets do not fit. *)
Definition px_bar (frame : list (string * string * Q)) (t xl yl : string)
                  (sequence : list string) : Outcome Figure :=
  let categories := Pandas.unique String.eqb (map (fun b => snd (fst b)) frame) in
  let trace (ic : nat * string) :=
    let group := filter (fun b => String.eqb (snd (fst b)) (snd ic)) frame in
    Bar (snd ic) (cycle sequence (fst ic))
        (map (fun b => fst (fst b)) group) (map snd group) in
  if too_many_facets (List.length categories) then Raise ValueError
  else Ok (mkFigure (map trace (enumerate categories)) (Some t)
                    (Some xl) (Some yl) None None None None None None).

(** [px.scatter(frame, x='model_year', y='price', color='brand',
                hover_data=['model'], labels={..},
                color_discrete_sequence=sequence)]:
    one trace per distinct brand. *)
Definition px_scatter (frame : DataFrame) (xl yl : string)
                      (sequence : list string) : Figure :=
  let categories := Pandas.unique String.eqb (map brand (records frame)) in
  let trace (ic : nat * string) :=
    let group := filter (fun r => String.eqb (brand r) (snd ic))
                        (records frame) in
    Scatter (snd ic) (cycle sequence (fst ic))
            (map model_year group) (map price group) (map model group) in
  mkFigure (map trace (enumerate categories)) None (Some xl) (Some yl)
           None None None None None None.

End Plotly.

(* ------------------------------------------------------------------ *)
(** ** Process state and the callback monad *)

Import Plotly.

(** What a callback can reach: the module-level names [df] and [colors],
    and the figure objects created so far, which plotly changes in place. *)
Record Globals : Type := mkState {
  df : DataFrame;
  colors : list string;
  figures : list Figure
}.

(** The state once the module body has run: no figure exists yet. *)
Definition mkGlobals (d : DataFrame) (palette : list string) : Globals :=
  mkState d palette [].

(** A computation runs on the state, returns a value or raises, and hands
    the state on. *)
Definition M (A : Type) : Type := Globals -> Outcome A * Globals.

Definition ret {A : Type} (a : A) : M A := fun g => (Ok a, g).

Definition bind {A B : Type} (m : M A) (k : A -> M B) : M B :=
  fun g =>
    match m g with
    | (Ok a, g') => k a g'
    | (Raise e, g') => (Raise e, g')
    end.

Definition raise {A : Type} (e : exn) : M A := fun g => (Raise e, g).

Definition lift {A : Type} (o : Outcome A) : M A := fun g => (o, g).

Definition read {A : Type} (name : Globals -> A) : M A :=
  fun g => (Ok (name g), g).

(** [l[i]] *)
Definition getitem {A : Type} (l : list A) (i : nat) : M A :=
  match nth_error l i with
  | Some v => ret v
  | None => raise IndexError
  end.

(** A figure object is known by its position among the objects. *)
Definition FigureRef : Type := nat.

(** A new figure object, with the content [fig]. *)
Definition new_figure (fig : Figure) : M FigureRef :=
  fun g => (Ok (List.length (figures g)),
            mkState (df g) (colors g) (figures g ++ [fig])%list).

Fixpoint update_nth {A : Type} (n : nat) (f : A -> A) (l : list A) : list A :=
  match l, n with
  | [], _ => []
  | a :: l', O => f a :: l'
  | a :: l', S n' => a :: update_nth n' f l'
  end.

(** [fig.update_layout(..)] and [fig.update_xaxes(..)] change the object
    itself. *)
Definition update_figure (ref : FigureRef) (change : Figure -> Figure)
  : M unit :=
  fun g => (Ok tt,
            mkState (df g) (colors g) (update_nth ref change (figures g))).

(** The content of a figure object, as the caller of the callback reads it
    off the returned object.  A reference that [new_figure] handed out is
    always in range. *)
Definition get_figure (ref : FigureRef) : M Figure :=
  fun g => (Ok (nth ref (figures g) go_Figure), g).

Notation "x <- m ;; k" := (bind m (fun x => k))
  (at level 61, m at next level, right associativity).

(* ------------------------------------------------------------------ *)
(** ** Module-level code of app.py *)

(** [colors] *)
Definition palette : list string :=
  [ "#EF553B"; "#377eb8"; "#999999"; "#54A24B"; "#F58518"; "#EECA3B" ].

(** [sorted(df['brand'].unique(), key=lambda x: x.lower())], with
    [lower] for [str.lower]. *)
Definition lower_le (lower : string -> string) (a b : string) : bool :=
  PyStr.le (lower a) (lower b).

Definition sorted_brands_of (lower : string -> string) (d : DataFrame)
  : list string :=
  Pandas.sort (lower_le lower)
              (Pandas.unique String.eqb (map brand (records d))).

(** The controls of [app.layout] that hold the filter state. *)
Inductive DropdownValue : Type :=
| Multi (values : list string)
| Single (value : string).

Record Dropdown : Type := mkDropdown {
  dd_id : string;
  dd_options : list (string * string);   (* label, value *)
  dd_value : DropdownValue;
  dd_multi : bool;
  dd_clearable : bool
}.

Record RangeSlider : Type := mkRangeSlider {
  rs_id : string;
  rs_min : Z;
  rs_max : Z;
  rs_step : Z;
  rs_value : list Z;
  rs_marks : list (Z * string)
}.

Record Layout : Type := mkLayout {
  brand_dropdown_multi : Dropdown;
  year_range_slider : RangeSlider;
  brand_dropdown_single : Dropdown
}.

Record App : Type := mkApp {
  app_globals : Globals;
  min_year : Z;
  max_year : Z;
  rounded_min_year : Z;
  rounded_max_year : Z;
  sorted_brands : list string;
  first_brand : string;
  layout : Layout
}.

(** The module body, run once on the frame read from [data.csv].
    [min_year] and [max_year] are [numpy.int64], so the arithmetic on them
    wraps.  On an empty frame [sorted_brands[0]] raises; the [nan] that
    [min()] gives there cannot reach [range]. *)
Definition load_app (lower : string -> string) (d : DataFrame)
  : Outcome App :=
  let lo_opt := Pandas.series_min (map model_year (records d)) in
  let hi_opt := Pandas.series_max (map model_year (records d)) in
  let brands := sorted_brands_of lower d in
  match nth_error brands 0 with
  | None => Raise IndexError
  | Some first =>
      match lo_opt, hi_opt with
      | Some lo, Some hi =>
          let options := map (fun b => (b, b)) brands in
          Ok (mkApp
                (mkGlobals d palette)
                lo hi
                (Int64.mul (Int64.floordiv lo 10) 10)
                (Int64.add
                   (Int64.mul (Int64.floordiv (Int64.add hi 5) 10) 10) 5)
                brands first
                (mkLayout
                   (mkDropdown "brand-dropdown-multi" options
                               (Multi [first]) true false)
                   (mkRangeSlider "year-range-slider" lo hi 1 [lo; hi]
                      (map (fun y => (y, PyStr.str_of_int y))
                           (py_range lo (Int64.add hi 1))))
                   (mkDropdown "brand-dropdown-single" options
                               (Single first) false false)))
      | _, _ => Raise TypeError
      end
  end.

(* ------------------------------------------------------------------ *)
(** ** The callbacks *)

(** [update_mileage_chart(selected_brands)], with [mean] for the mean of
    pandas. *)
Definition update_mileage_chart (mean : list Q -> Q)
                                (selected_brands : list string) : M Figure :=
  d <- read df ;;
  let filtered_df :=
    Pandas.loc d (fun r => Pandas.isin (brand r) selected_brands) in
  if Pandas.empty filtered_df then
    fig <- new_figure go_Figure ;;
    _ <- update_figure fig
           (update_title "No data available for selected brands") ;;
    get_figure fig
  else
    let avg_mileage := Pandas.groupby_mean mean filtered_df in
    sequence <- read colors ;;
    built <- lift (px_bar avg_mileage
                     "Average Mileage by Vehicle Brand and Transmission Type"
                     "Brand" "Average Mileage (mi)" sequence) ;;
    fig <- new_figure built ;;
    _ <- update_figure fig
           (fun f =>
              update_title
                "Average Mileage by Vehicle Brand and Transmission Type"
                (update_bgcolor "lightgrey"
                   (update_axes_legend "Brand" "Average Mileage" true f))) ;;
    get_figure fig.

(** [update_price_graph(selected_brands, selected_years)] *)
Definition update_price_graph (selected_brands : list string)
                              (selected_years : list Z) : M Figure :=
  d <- read df ;;
  lo <- getitem selected_years 0 ;;
  hi <- getitem selected_years 1 ;;
  let filtered_df :=
    Pandas.loc d (fun r => Pandas.isin (brand r) selected_brands
                           && (lo <=? model_year r)
                           && (model_year r <=? hi)) in
  if Pandas.empty filtered_df then
    fig <- new_figure go_Figure ;;
    _ <- update_figure fig
           (update_title "No data available for selected criteria") ;;
    get_figure fig
  else
    sequence <- read colors ;;
    fig <- new_figure
             (px_scatter filtered_df "Model Year" "Price ($)" sequence) ;;
    lo' <- getitem selected_years 0 ;;
    hi' <- getitem selected_years 1 ;;
    _ <- update_figure fig
           (update_xaxes (py_range lo' (hi' + 1))
                         (map PyStr.str_of_int (py_range lo' (hi' + 1)))) ;;
    _ <- update_figure fig
           (fun f => update_title "Price Trends Over Selected Years"
                       (update_bgcolor "lightgrey" f)) ;;
    get_figure fig.

(** The children that [update_table] returns. *)
Inductive Component : Type :=
| H6 (children : string) (style : list (string * string))
| DataTable (id : string)
            (table_columns : list (string * string))   (* name, id *)
            (table_data : list Row)
            (style_table style_cell : list (string * string))
            (page_size : Z).

(** [update_table(selected_brand)] *)
Definition update_table (selected_brand : string) : M (list Component) :=
  d <- read df ;;
  let filtered_df :=
    Pandas.loc d (fun r => String.eqb (brand r) selected_brand) in
  if Pandas.empty filtered_df then
    ret [ H6 ("No data available for " ++ selected_brand)
             [("text-align", "center"); ("font-weight", "400");
              ("font-size", "16px")] ]
  else
    ret [ H6 ("Data Table for " ++ selected_brand ++ " vehicles")
             [("text-align", "center")];
          DataTable "cars-table"
                    (map (fun i => (i, i)) (columns filtered_df))
                    (records filtered_df)
                    [("height", "300px")] [("textAlign", "left")]
                    9 ].

(* ------------------------------------------------------------------ *)
(** ** Reading a figure back *)

(** The bars of a figure as (brand, transmission, mean mileage): a bar
    trace is named after its transmission and lists its brands on x. *)
Definition trace_bars (t : Trace) : list (string * string * Q) :=
  match t with
  | Bar name _ x y => map (fun xy => (fst xy, name, snd xy)) (combine x y)
  | Scatter _ _ _ _ _ => []
  end.

Definition figure_bars (fig : Figure) : list (string * string * Q) :=
  flat_map trace_bars (data fig).

(** The points of a figure: x, y, the value the colour is keyed by (the
    name of the trace) and the hover text. *)
Record Point : Type := mkPoint {
  pt_x : Z;
  pt_y : Q;
  pt_color_key : string;
  pt_tooltip : string
}.

Definition trace_points (t : Trace) : list Point :=
  match t with
  | Bar _ _ _ _ => []
  | Scatter name _ x y customdata =>
      map (fun p => mkPoint (fst (fst p)) (snd (fst p)) name (snd p))
          (combine (combine x y) customdata)
  end.

Definition figure_points (fig : Figure) : list Point :=
  flat_map trace_points (data fig).

Definition trace_name (t : Trace) : string :=
  match t with
  | Bar name _ _ _ => name
  | Scatter name _ _ _ _ => name
  end.

Definition trace_color (t : Trace) : string :=
  match t with
  | Bar _ c _ _ => c
  | Scatter _ c _ _ _ => c
  end.

(** The colour a figure gives to the category [name], if it shows it. *)
Definition color_of (fig : Figure) (name : string) : option string :=
  option_map trace_color
    (find (fun t => String.eqb (trace_name t) name) (data fig)).

(** The figure with no trace and a title that carries the message. *)
Definition no_data (message : string) : Figure :=
  update_title message go_Figure.

(** The table of the children of [update_table]. *)
Definition component_rows (c : Component) : list Row :=
  match c with
  | H6 _ _ => []
  | DataTable _ _ rows _ _ _ => rows
  end.

Definition table_rows (children : list Component) : list Row :=
  flat_map component_rows children.

(** Running a callback on a state. *)
Definition result {A : Type} (m : M A) (g : Globals) : Outcome A := fst (m g).
Definition state_after {A : Type} (m : M A) (g : Globals) : Globals :=
  snd (m g).

(* ------------------------------------------------------------------ *)
(** ** The vocabulary of the specification *)


(** The sum of a list of numbers, and the quotient of the sum by the
    count.  On the rationals the quotient is exact; it is the mean that
    the examples are run with, on data whose float64 mean is exact. *)
Definition total (l : list Q) : Q := fold_right Qplus (0 # 1)%Q l.

Definition exact_mean (l : list Q) : Q :=
  (total l / inject_Z (Z.of_nat (List.length l)))%Q.

(** The records of the dataset that satisfy the brand and the year-range
    predicates. *)
Definition in_selection (selected_brands : list string) (lo hi : Z)
                        (r : Row) : bool :=
  Pandas.isin (brand r) selected_brands
  && (lo <=? model_year r) && (model_year r <=? hi).

(** The point a record is drawn as. *)
Definition point_of_row (r : Row) : Point :=
  mkPoint (model_year r) (price r) (brand r) (model r).

(** The message of a component. *)
Definition component_text (c : Component) : option string :=
  match c with
  | H6 children _ => Some children
  | DataTable _ _ _ _ _ _ => None
  end.

(** The state [g] with one more figure object. *)
Definition with_figure (g : Globals) (fig : Figure) : Globals :=
  mkState (df g) (colors g) (figures g ++ [fig])%list.

(** The elements of a list with the key [k]. *)
Definition rows_with {A K : Type} (key : A -> K) (eqb : K -> K -> bool)
                     (l : list A) (k : K) : list A :=
  filter (fun a => eqb (key a) k) l.

(* ------------------------------------------------------------------ *)
(** ** Example datasets *)

Definition six_columns : list string :=
  [ "brand"; "model"; "model_year"; "mileage"; "price"; "transmission" ].

(** The two Ford listings of the examples. *)
Definition two_fords : DataFrame :=
  mkDataFrame six_columns
    [ mkRow "Ford" "Focus" 2015 (50000 # 1) (10000 # 1) "automatic";
      mkRow "Ford" "Fiesta" 2018 (20000 # 1) (18000 # 1) "manual" ].

(** A manual Ford, then an automatic and a manual Audi. *)
Definition ford_and_audis : DataFrame :=
  mkDataFrame six_columns
    [ mkRow "Ford" "Focus" 2015 (50000 # 1) (10000 # 1) "manual";
      mkRow "Audi" "A4" 2017 (30000 # 1) (21000 # 1) "automatic";
      mkRow "Audi" "A3" 2018 (20000 # 1) (18000 # 1) "manual" ].

(** Three brands whose order by lower-cased text is not their order by
    code point. *)
Definition mixed_case_cars : DataFrame :=
  mkDataFrame six_columns
    [ mkRow "Ford" "Focus" 2015 (50000 # 1) (10000 # 1) "manual";
      mkRow "audi" "A4" 2017 (30000 # 1) (21000 # 1) "automatic";
      mkRow "BMW" "X1" 2019 (20000 # 1) (18000 # 1) "manual" ].

(** Fifty-two Fords, each with a transmission of its own. *)
Definition many_transmissions : DataFrame :=
  mkDataFrame six_columns
    (map (fun i => mkRow "Ford" "Focus" 2015 (50000 # 1) (10000 # 1)
                         (PyStr.str_of_int i))
         (py_range 0 52)).

(** One listing whose model year is the greatest [numpy.int64]. *)
Definition car_of_the_last_year : DataFrame :=
  mkDataFrame six_columns
    [ mkRow "Ford" "Focus" 9223372036854775807 (50000 # 1) (10000 # 1)
            "manual" ].

(* ------------------------------------------------------------------ *)
(** * Properties *)

(** ** [unique] *)

Section UniqueFacts.
Context {A : Type} (eqb : A -> A -> bool).
Hypothesis eqb_spec : forall a b, eqb a b = true <-> a = b.

Lemma mem_In (x : A) (l : list A) : Pandas.mem eqb x l = true <-> In x l.
Proof.
  unfold Pandas.mem. rewrite existsb_exists. split.
  - intros [y [Hy He]]. apply eqb_spec in He. now subst.
  - intros H. exists x. split; [assumption | now apply eqb_spec].
Qed.

Lemma unique_acc_In (l seen : list A) (x : A) :
  In x (Pandas.unique_acc eqb seen l) <-> In x l /\ ~ In x seen.
Proof.
  revert seen. induction l as [|y l IH]; intros seen; simpl.
  - tauto.
  - destruct (Pandas.mem eqb y seen) eqn:Hm.
    + apply mem_In in Hm. rewrite IH. split.
      * tauto.
      * intros [[->|H] Hn]; tauto.
    + assert (Hy : ~ In y seen) by (rewrite <- mem_In, Hm; discriminate).
      simpl. rewrite IH. simpl. split.
      * intros [->|[H Hn]]; tauto.
      * intros [[->|H] Hn]; [now left|].
        destruct (Pandas.mem eqb x [y]) eqn:Hx.
        -- apply mem_In in Hx. destruct Hx as [->|[]]. now left.
        -- right. split; [assumption|]. intros [->|Hs]; [|tauto].
           assert (In x [x]) as Hin by now left.
           apply mem_In in Hin. congruence.
Qed.

Lemma unique_acc_NoDup (l seen : list A) :
  NoDup (Pandas.unique_acc eqb seen l).
Proof.
  revert seen. induction l as [|y l IH]; intros seen; simpl.
  - constructor.
  - destruct (Pandas.mem eqb y seen); [apply IH|].
    constructor; [|apply IH].
    rewrite unique_acc_In. simpl. tauto.
Qed.

Lemma unique_In (l : list A) (x : A) : In x (Pandas.unique eqb l) <-> In x l.
Proof. unfold Pandas.unique. rewrite unique_acc_In. simpl. tauto. Qed.

Lemma unique_NoDup (l : list A) : NoDup (Pandas.unique eqb l).
Proof. apply unique_acc_NoDup. Qed.

End UniqueFacts.

(** ** [sort] *)

Section SortFacts.
Context {A : Type} (le : A -> A -> bool).

Lemma insert_perm (x : A) (l : list A) :
  Permutation (Pandas.insert le x l) (x :: l).
Proof.
  induction l as [|y l IH]; simpl.
  - reflexivity.
  - destruct (le x y); [reflexivity|].
    rewrite IH. apply perm_swap.
Qed.

Lemma sort_perm (l : list A) : Permutation (Pandas.sort le l) l.
Proof.
  induction l as [|x l IH]; simpl.
  - constructor.
  - rewrite insert_perm. now constructor.
Qed.

Lemma sort_In (l : list A) (x : A) : In x (Pandas.sort le l) <-> In x l.
Proof.
  split; apply Permutation_in;
    [apply sort_perm | apply Permutation_sym, sort_perm].
Qed.

Lemma sort_NoDup (l : list A) : NoDup l -> NoDup (Pandas.sort le l).
Proof.
  intros H. eapply Permutation_NoDup; [|exact H].
  apply Permutation_sym, sort_perm.
Qed.

Hypothesis le_total : forall a b, le a b = true \/ le b a = true.
Hypothesis le_trans :
  forall a b c, le a b = true -> le b c = true -> le a c = true.

Lemma insert_sorted (x : A) (l : list A) :
  StronglySorted (fun a b => le a b = true) l -> StronglySorted (fun a b => le a b = true) (Pandas.insert le x l).
Proof.
  induction 1 as [|y l Hs IH Hall]; simpl.
  - repeat constructor.
  - destruct (le x y) eqn:Hxy.
    + constructor; [now constructor|].
      constructor; [exact Hxy|].
      eapply Forall_impl; [|exact Hall].
      intros z Hz. now apply le_trans with y.
    + constructor; [exact IH|].
      assert (Hyx : le y x = true) by (destruct (le_total x y); [congruence|assumption]).
      rewrite Forall_forall in *. intros z Hz.
      apply (Permutation_in _ (insert_perm x l)) in Hz.
      destruct Hz as [<-|Hz]; [exact Hyx | now apply Hall].
Qed.

Lemma sort_sorted (l : list A) : StronglySorted (fun a b => le a b = true) (Pandas.sort le l).
Proof.
  induction l as [|x l IH]; simpl.
  - constructor.
  - now apply insert_sorted.
Qed.


End SortFacts.

(** ** Order on strings *)

Lemma string_leb_trans (a b c : string) :
  String.leb a b = true -> String.leb b c = true -> String.leb a c = true.
Proof.
  unfold String.leb. revert b c.
  induction a as [|x a IH]; intros [|y b] [|z c]; simpl; try easy.
  unfold Ascii.compare.
  destruct (N.compare_spec (N_of_ascii x) (N_of_ascii y));
    destruct (N.compare_spec (N_of_ascii y) (N_of_ascii z));
    destruct (N.compare_spec (N_of_ascii x) (N_of_ascii z));
    try lia; try easy.
  apply IH.
Qed.



Lemma key_eqb_spec (k1 k2 : string * string) :
  Pandas.key_eqb k1 k2 = true <-> k1 = k2.
Proof.
  destruct k1 as [a1 b1], k2 as [a2 b2]. unfold Pandas.key_eqb. simpl.
  rewrite andb_true_iff, !String.eqb_eq. split.
  - intros [-> ->]. reflexivity.
  - intros H. injection H as -> ->. split; reflexivity.
Qed.

(** ** Lists *)

Lemma combine_map_same {A B C : Type} (f : A -> B) (g : A -> C) (l : list A) :
  combine (map f l) (map g l) = map (fun a => (f a, g a)) l.
Proof. induction l as [|a l IH]; simpl; [reflexivity | now rewrite IH]. Qed.


Lemma flat_map_enumerate {A B : Type} (h : A -> list B)
      (f : nat * A -> list B) (l : list A) :
  (forall i a, f (i, a) = h a) ->
  flat_map f (Plotly.enumerate l) = flat_map h l.
Proof.
  intros Hf. unfold Plotly.enumerate. generalize 0%nat.
  induction l as [|a l IH]; intros s; simpl; [reflexivity|].
  now rewrite Hf, IH.
Qed.

Lemma map_enumerate {A B : Type} (h : A -> B) (f : nat * A -> B)
      (l : list A) :
  (forall i a, f (i, a) = h a) ->
  map f (Plotly.enumerate l) = map h l.
Proof.
  intros Hf. unfold Plotly.enumerate. generalize 0%nat.
  induction l as [|a l IH]; intros s; simpl; [reflexivity|].
  now rewrite Hf, IH.
Qed.


Lemma flat_map_ext_on {A B : Type} (f g : A -> list B) (l : list A) :
  (forall a, In a l -> f a = g a) -> flat_map f l = flat_map g l.
Proof.
  induction l as [|a l IH]; intros H; simpl; [reflexivity|].
  rewrite (H a (or_introl eq_refl)), IH; [reflexivity|].
  intros b Hb. apply H. now right.
Qed.

(** ** Grouping a list by a key *)

Section GroupFacts.
Context {A K : Type} (key : A -> K) (eqb : K -> K -> bool).
Hypothesis eqb_spec : forall a b, eqb a b = true <-> a = b.

Lemma eqb_refl_of_spec (k : K) : eqb k k = true.
Proof. now apply eqb_spec. Qed.

Lemma eqb_false_of_neq (a b : K) : a <> b -> eqb a b = false.
Proof.
  intros H. destruct (eqb a b) eqn:E; [|reflexivity].
  apply eqb_spec in E. contradiction.
Qed.

Lemma group_absent (l : list A) (a : A) (ks : list K) :
  ~ In (key a) ks ->
  flat_map (rows_with key eqb (a :: l)) ks = flat_map (rows_with key eqb l) ks.
Proof.
  intros H. apply flat_map_ext_on. intros k Hk. unfold rows_with. simpl.
  rewrite eqb_false_of_neq; [reflexivity|]. intros E. now rewrite E in H.
Qed.

Lemma group_cons (l : list A) (a : A) (ks : list K) :
  NoDup ks -> In (key a) ks ->
  Permutation (flat_map (rows_with key eqb (a :: l)) ks) (a :: flat_map (rows_with key eqb l) ks).
Proof.
  induction 1 as [|k ks Hk Hnd IH]; intros Hin; [destruct Hin|].
  change (flat_map (rows_with key eqb (a :: l)) (k :: ks))
    with (rows_with key eqb (a :: l) k ++ flat_map (rows_with key eqb (a :: l)) ks)%list.
  change (flat_map (rows_with key eqb l) (k :: ks))
    with (rows_with key eqb l k ++ flat_map (rows_with key eqb l) ks)%list.
  destruct (eqb (key a) k) eqn:E.
  - apply eqb_spec in E. subst k.
    rewrite (group_absent l a ks Hk). unfold rows_with at 1. simpl.
    now rewrite eqb_refl_of_spec.
  - destruct Hin as [Hk'|Hin];
      [rewrite Hk', eqb_refl_of_spec in E; discriminate|].
    unfold rows_with at 1. simpl. rewrite E. fold (rows_with key eqb l k).
    rewrite (IH Hin). symmetry. apply Permutation_middle.
Qed.

(** The groups of a list, taken over distinct keys that cover it, hold
    every element once. *)
Lemma groups_perm (l : list A) (ks : list K) :
  NoDup ks -> (forall a, In a l -> In (key a) ks) ->
  Permutation (flat_map (rows_with key eqb l) ks) l.
Proof.
  intros Hnd. induction l as [|a l IH]; intros Hcov.
  - unfold rows_with. simpl. clear. induction ks; simpl; auto.
  - rewrite group_cons; [|assumption|apply Hcov; now left].
    constructor. apply IH. intros b Hb. apply Hcov. now right.
Qed.

End GroupFacts.

(** ** Filters *)

Lemma filter_nonempty {A : Type} (f : A -> bool) (l : list A) :
  filter f l <> [] <-> exists a, In a l /\ f a = true.
Proof.
  split.
  - intros H. destruct (filter f l) as [|a s] eqn:E; [contradiction|].
    exists a. apply filter_In. rewrite E. now left.
  - intros [a Ha] E. apply filter_In in Ha. rewrite E in Ha. destruct Ha.
Qed.

Lemma isin_In (x : string) (values : list string) :
  Pandas.isin x values = true <-> In x values.
Proof.
  unfold Pandas.isin. rewrite existsb_exists. split.
  - intros [y [Hy He]]. apply String.eqb_eq in He. now subst.
  - intros H. exists x. split; [assumption | apply String.eqb_refl].
Qed.



Lemma map_nonempty {A B : Type} (f : A -> B) (l : list A) :
  map f l <> [] <-> l <> [].
Proof. destruct l; simpl; split; congruence. Qed.

Lemma perm_nonempty {A : Type} (l1 l2 : list A) :
  Permutation l1 l2 -> (l1 <> [] <-> l2 <> []).
Proof.
  intros P. split; intros H E; subst.
  - apply Permutation_sym, Permutation_nil in P. contradiction.
  - apply Permutation_nil in P. contradiction.
Qed.

(** ** Figure objects *)

Lemma update_nth_last {A : Type} (l : list A) (a : A) (f : A -> A) :
  update_nth (List.length l) f (l ++ [a]) = (l ++ [f a])%list.
Proof. induction l as [|b l IH]; simpl; [reflexivity | now rewrite IH]. Qed.

(** A figure that is created, changed once and read back. *)
Lemma fresh_figure (g : Globals) (fig : Figure) (change : Figure -> Figure) :
  (ref <- new_figure fig ;;
   _ <- update_figure ref change ;;
   get_figure ref) g
  = (Ok (change fig), with_figure g (change fig)).
Proof.
  unfold bind, new_figure, update_figure, get_figure, with_figure. simpl.
  now rewrite update_nth_last, nth_middle.
Qed.

(** A figure that is created, changed twice and read back. *)
Lemma fresh_figure_twice (g : Globals) (fig : Figure)
      (change1 change2 : Figure -> Figure) :
  (ref <- new_figure fig ;;
   _ <- update_figure ref change1 ;;
   _ <- update_figure ref change2 ;;
   get_figure ref) g
  = (Ok (change2 (change1 fig)), with_figure g (change2 (change1 fig))).
Proof.
  unfold bind, new_figure, update_figure, get_figure, with_figure. simpl.
  now rewrite !update_nth_last, nth_middle.
Qed.

(** ** What each callback returns *)

Lemma update_mileage_chart_no_data (mean : list Q -> Q) (g : Globals)
      (sel : list string) :
  filter (fun r => Pandas.isin (brand r) sel) (records (df g)) = [] ->
  update_mileage_chart mean sel g
  = (Ok (no_data "No data available for selected brands"),
     with_figure g (no_data "No data available for selected brands")).
Proof.
  intros H. unfold update_mileage_chart, Pandas.empty.
  unfold bind at 1. unfold read at 1. cbn [Pandas.loc records].
  rewrite H. apply fresh_figure.
Qed.

(** With records to show, the callback raises what [px.bar] raises, or
    returns the figure of [px.bar] with its layout set. *)
Lemma update_mileage_chart_run (mean : list Q -> Q) (g : Globals)
      (sel : list string) :
  filter (fun r => Pandas.isin (brand r) sel) (records (df g)) <> [] ->
  update_mileage_chart mean sel g
  = match px_bar (Pandas.groupby_mean mean
                    (Pandas.loc (df g) (fun r => Pandas.isin (brand r) sel)))
                 "Average Mileage by Vehicle Brand and Transmission Type"
                 "Brand" "Average Mileage (mi)" (colors g) with
    | Ok built =>
        (Ok (update_title
               "Average Mileage by Vehicle Brand and Transmission Type"
               (update_bgcolor "lightgrey"
                  (update_axes_legend "Brand" "Average Mileage" true built))),
         with_figure g
           (update_title
               "Average Mileage by Vehicle Brand and Transmission Type"
               (update_bgcolor "lightgrey"
                  (update_axes_legend "Brand" "Average Mileage" true built))))
    | Raise e => (Raise e, g)
    end.
Proof.
  intros H. unfold update_mileage_chart, Pandas.empty.
  unfold bind at 1. unfold read at 1. cbn [Pandas.loc records].
  destruct (filter (fun r => Pandas.isin (brand r) sel) (records (df g)))
    as [|r0 rs] eqn:E; [contradiction|].
  unfold bind at 1. unfold read at 1.
  unfold bind at 1. unfold lift at 1. unfold Pandas.loc. rewrite E.
  destruct (px_bar _ _ _ _ (colors g)) as [built|e]; [|reflexivity].
  exact (fresh_figure g built
           (fun f =>
              update_title
                "Average Mileage by Vehicle Brand and Transmission Type"
                (update_bgcolor "lightgrey"
                   (update_axes_legend "Brand" "Average Mileage" true f)))).
Qed.

Lemma update_mileage_chart_built (mean : list Q -> Q) (g : Globals)
      (sel : list string) (built : Figure) :
  filter (fun r => Pandas.isin (brand r) sel) (records (df g)) <> [] ->
  px_bar (Pandas.groupby_mean mean
            (Pandas.loc (df g) (fun r => Pandas.isin (brand r) sel)))
         "Average Mileage by Vehicle Brand and Transmission Type"
         "Brand" "Average Mileage (mi)" (colors g) = Ok built ->
  exists fig,
    update_mileage_chart mean sel g = (Ok fig, with_figure g fig) /\
    data fig = data built /\
    title_text fig
    = Some "Average Mileage by Vehicle Brand and Transmission Type".
Proof.
  intros H Hb. rewrite (update_mileage_chart_run mean g sel H), Hb.
  eexists. split; [reflexivity|]. split; reflexivity.
Qed.

Lemma update_mileage_chart_raises (mean : list Q -> Q) (g : Globals)
      (sel : list string) (e : exn) :
  filter (fun r => Pandas.isin (brand r) sel) (records (df g)) <> [] ->
  px_bar (Pandas.groupby_mean mean
            (Pandas.loc (df g) (fun r => Pandas.isin (brand r) sel)))
         "Average Mileage by Vehicle Brand and Transmission Type"
         "Brand" "Average Mileage (mi)" (colors g) = Raise e ->
  update_mileage_chart mean sel g = (Raise e, g).
Proof.
  intros H Hb. now rewrite (update_mileage_chart_run mean g sel H), Hb.
Qed.

Lemma update_price_graph_no_data (g : Globals) (sel : list string)
      (lo hi : Z) (rest : list Z) :
  filter (in_selection sel lo hi) (records (df g)) = [] ->
  update_price_graph sel (lo :: hi :: rest) g
  = (Ok (no_data "No data available for selected criteria"),
     with_figure g (no_data "No data available for selected criteria")).
Proof.
  intros H. unfold update_price_graph, Pandas.empty, getitem.
  cbn [nth_error]. unfold bind at 1. unfold read at 1.
  unfold bind at 1. unfold ret at 1. unfold bind at 1. unfold ret at 1.
  cbn [Pandas.loc records]. unfold in_selection in H. rewrite H.
  apply fresh_figure.
Qed.

Lemma update_price_graph_shown (g : Globals) (sel : list string)
      (lo hi : Z) (rest : list Z) :
  filter (in_selection sel lo hi) (records (df g)) <> [] ->
  update_price_graph sel (lo :: hi :: rest) g
  = (Ok (update_title "Price Trends Over Selected Years"
           (update_bgcolor "lightgrey"
              (update_xaxes (py_range lo (hi + 1))
                 (map PyStr.str_of_int (py_range lo (hi + 1)))
                 (px_scatter (Pandas.loc (df g) (in_selection sel lo hi))
                             "Model Year" "Price ($)" (colors g))))),
     with_figure g
       (update_title "Price Trends Over Selected Years"
           (update_bgcolor "lightgrey"
              (update_xaxes (py_range lo (hi + 1))
                 (map PyStr.str_of_int (py_range lo (hi + 1)))
                 (px_scatter (Pandas.loc (df g) (in_selection sel lo hi))
                             "Model Year" "Price ($)" (colors g)))))).
Proof.
  intros H. unfold update_price_graph, Pandas.empty, getitem.
  cbn [nth_error]. unfold bind at 1. unfold read at 1.
  unfold bind at 1. unfold ret at 1. unfold bind at 1. unfold ret at 1.
  cbn [Pandas.loc records]. unfold in_selection in *.
  destruct (filter _ (records (df g))) as [|r0 rs] eqn:E; [contradiction|].
  unfold bind at 1. unfold read at 1.
  exact (fresh_figure_twice g _
           (update_xaxes (py_range lo (hi + 1))
              (map PyStr.str_of_int (py_range lo (hi + 1))))
           (fun f => update_title "Price Trends Over Selected Years"
                       (update_bgcolor "lightgrey" f))).
Qed.

Lemma update_table_no_data (g : Globals) (sel : string) :
  filter (fun r => String.eqb (brand r) sel) (records (df g)) = [] ->
  update_table sel g
  = (Ok [ H6 ("No data available for " ++ sel)
             [("text-align", "center"); ("font-weight", "400");
              ("font-size", "16px")] ], g).
Proof.
  intros H. unfold update_table, bind, read, ret, Pandas.empty.
  simpl. now rewrite H.
Qed.

Lemma update_table_shown (g : Globals) (sel : string) :
  filter (fun r => String.eqb (brand r) sel) (records (df g)) <> [] ->
  update_table sel g
  = (Ok [ H6 ("Data Table for " ++ sel ++ " vehicles")
             [("text-align", "center")];
          DataTable "cars-table"
                    (map (fun i => (i, i)) (columns (df g)))
                    (filter (fun r => String.eqb (brand r) sel)
                            (records (df g)))
                    [("height", "300px")] [("textAlign", "left")] 9 ], g).
Proof.
  intros H. unfold update_table, bind, read, ret, Pandas.empty.
  simpl. destruct (filter _ (records (df g))); [contradiction|]. reflexivity.
Qed.

(** ** The bars of the mileage chart *)

Lemma px_bar_raises (frame : list (string * string * Q)) (t xl yl : string)
      (sequence : list string) :
  (52 <= List.length
           (Pandas.unique String.eqb (map (fun b => snd (fst b)) frame)))%nat ->
  px_bar frame t xl yl sequence = Raise ValueError.
Proof.
  intros H. unfold px_bar, too_many_facets.
  apply Nat.leb_le in H. now rewrite H.
Qed.

Lemma px_bar_returns (frame : list (string * string * Q)) (t xl yl : string)
      (sequence : list string) :
  (List.length
     (Pandas.unique String.eqb (map (fun b => snd (fst b)) frame)) < 52)%nat ->
  exists fig, px_bar frame t xl yl sequence = Ok fig.
Proof.
  intros H. unfold px_bar, too_many_facets.
  apply Nat.leb_gt in H. rewrite H. now eexists.
Qed.

(** The bars that plotly express draws are the records of the frame. *)
Lemma px_bar_bars (frame : list (string * string * Q)) (t xl yl : string)
      (sequence : list string) (fig : Figure) :
  px_bar frame t xl yl sequence = Ok fig ->
  Permutation (figure_bars fig) frame.
Proof.
  unfold px_bar. destruct (too_many_facets _); [discriminate|].
  intros H. injection H as <-. unfold figure_bars. simpl.
  rewrite flat_map_concat_map, map_map, <- flat_map_concat_map.
  rewrite (flat_map_enumerate
             (fun c => filter (fun b => String.eqb (snd (fst b)) c) frame)).
  - apply (groups_perm (fun b : string * string * Q => snd (fst b))
                       String.eqb String.eqb_eq).
    + apply unique_NoDup, String.eqb_eq.
    + intros b Hb. apply (unique_In String.eqb String.eqb_eq).
      exact (in_map (fun b : string * string * Q => snd (fst b)) frame b Hb).
  - intros i c. simpl. rewrite combine_map_same, map_map.
    rewrite <- (map_id (filter _ frame)) at 2.
    apply map_ext_in. intros [[b c'] m] Hb. simpl.
    apply filter_In in Hb. destruct Hb as [_ Hb]. simpl in Hb.
    apply String.eqb_eq in Hb. now subst.
Qed.

Lemma groupby_mean_keys (mean : list Q -> Q) (frame : DataFrame) :
  map fst (Pandas.groupby_mean mean frame)
  = Pandas.group_keys (records frame).
Proof.
  unfold Pandas.groupby_mean. rewrite map_map. simpl.
  rewrite <- (map_id (Pandas.group_keys _)) at 2.
  apply map_ext. now intros [b t].
Qed.

Lemma group_keys_NoDup (rows : list Row) : NoDup (Pandas.group_keys rows).
Proof. apply sort_NoDup, unique_NoDup, key_eqb_spec. Qed.

Lemma group_keys_In (rows : list Row) (k : string * string) :
  In k (Pandas.group_keys rows) <-> exists r, In r rows /\ Pandas.group_key r = k.
Proof.
  unfold Pandas.group_keys.
  rewrite sort_In, (unique_In _ key_eqb_spec), in_map_iff.
  split; intros [r [H1 H2]]; exists r; tauto.
Qed.



Lemma selected_key_In (d : DataFrame) (sel : list string) (b t : string) :
  In (b, t)
     (Pandas.group_keys
        (filter (fun r => Pandas.isin (brand r) sel) (records d)))
  <-> exists r, In r (records d) /\ In (brand r) sel /\ brand r = b
                /\ transmission r = t.
Proof.
  rewrite group_keys_In. split.
  - intros [r [Hr Hk]]. apply filter_In in Hr. destruct Hr as [Hr Hs].
    apply isin_In in Hs. injection Hk as Hb Ht. exists r. tauto.
  - intros [r [Hr [Hs [Hb Ht]]]]. exists r. split.
    + apply filter_In. split; [exact Hr | now apply isin_In].
    + unfold Pandas.group_key. now rewrite Hb, Ht.
Qed.

(** With the transmissions of the selected records among fewer than 52
    values, the facets fit. *)
Lemma selected_facets_fit (mean : list Q -> Q) (d : DataFrame)
      (sel ts : list string) :
  (forall r, In r (records d) -> In (brand r) sel ->
             In (transmission r) ts) ->
  (List.length ts < 52)%nat ->
  (List.length
     (Pandas.unique String.eqb
        (map (fun b : string * string * Q => snd (fst b))
             (Pandas.groupby_mean mean
                (Pandas.loc d (fun r => Pandas.isin (brand r) sel)))))
   < 52)%nat.
Proof.
  intros Hts Hlen. eapply Nat.le_lt_trans; [|exact Hlen].
  apply NoDup_incl_length; [apply unique_NoDup, String.eqb_eq|].
  intros t Ht. apply (proj1 (unique_In String.eqb String.eqb_eq _ _)) in Ht.
  rewrite <- (map_map fst snd), groupby_mean_keys in Ht.
  apply in_map_iff in Ht. destruct Ht as [[b t'] [Heq Hk]].
  simpl in Heq. subst t'. unfold Pandas.loc in Hk. cbn [records] in Hk.
  apply selected_key_In in Hk. destruct Hk as [r [Hr [Hs [_ <-]]]].
  now apply Hts.
Qed.

(** The run of the mileage chart on records whose transmissions fit. *)
Lemma mileage_bars_perm (mean : list Q -> Q) (g : Globals)
      (sel ts : list string) :
  (forall r, In r (records (df g)) -> In (brand r) sel ->
             In (transmission r) ts) ->
  (List.length ts < 52)%nat ->
  exists fig,
    update_mileage_chart mean sel g = (Ok fig, with_figure g fig) /\
    Permutation (figure_bars fig)
                (Pandas.groupby_mean mean
                   (Pandas.loc (df g) (fun r => Pandas.isin (brand r) sel))).
Proof.
  intros Hts Hlen.
  destruct (filter (fun r => Pandas.isin (brand r) sel) (records (df g)))
    as [|r0 rs] eqn:E.
  - rewrite (update_mileage_chart_no_data mean g sel E). eexists.
    split; [reflexivity|].
    unfold Pandas.groupby_mean, Pandas.loc. cbn [records]. rewrite E.
    apply perm_nil.
  - destruct (px_bar_returns _
                "Average Mileage by Vehicle Brand and Transmission Type"
                "Brand" "Average Mileage (mi)" (colors g)
                (selected_facets_fit mean (df g) sel ts Hts Hlen))
      as [built Hb].
    destruct (update_mileage_chart_built mean g sel built)
      as [fig [Hrun [Hdata _]]]; [rewrite E; discriminate | exact Hb |].
    exists fig. split; [exact Hrun|].
    unfold figure_bars. rewrite Hdata. exact (px_bar_bars _ _ _ _ _ _ Hb).
Qed.




(** ** The points of the price graph *)

Lemma map_flat_map {A B C : Type} (f : B -> C) (h : A -> list B) (l : list A) :
  map f (flat_map h l) = flat_map (fun a => map f (h a)) l.
Proof.
  induction l as [|a l IH]; simpl; [reflexivity|].
  now rewrite map_app, IH.
Qed.

(** The points that plotly express draws are the records of the frame. *)
Lemma px_scatter_points (frame : DataFrame) (xl yl : string)
      (sequence : list string) :
  Permutation (figure_points (px_scatter frame xl yl sequence))
              (map point_of_row (records frame)).
Proof.
  unfold figure_points, px_scatter. simpl.
  rewrite flat_map_concat_map, map_map, <- flat_map_concat_map.
  rewrite (flat_map_enumerate
             (fun c => map point_of_row
                         (filter (fun r => String.eqb (brand r) c)
                                 (records frame)))).
  - rewrite <- map_flat_map. apply Permutation_map.
    apply (groups_perm brand String.eqb String.eqb_eq).
    + apply unique_NoDup, String.eqb_eq.
    + intros r Hr. apply (unique_In String.eqb String.eqb_eq).
      exact (in_map brand _ r Hr).
  - intros i c. simpl. rewrite !combine_map_same, map_map.
    apply map_ext_in. intros r Hr. simpl.
    apply filter_In in Hr. destruct Hr as [_ Hr].
    apply String.eqb_eq in Hr. now subst.
Qed.

(** ** [range] *)

Lemma py_range_In (lo hi y : Z) : In y (py_range lo hi) <-> lo <= y < hi.
Proof.
  unfold py_range. rewrite in_map_iff. split.
  - intros [i [<- Hi]]. apply in_seq in Hi. lia.
  - intros H. exists (Z.to_nat (y - lo)). split; [lia|].
    apply in_seq. lia.
Qed.

Lemma py_range_length (lo hi : Z) :
  Z.of_nat (List.length (py_range lo hi)) = Z.max 0 (hi - lo).
Proof. unfold py_range. rewrite length_map, length_seq. lia. Qed.

Lemma py_range_sorted (lo hi : Z) : StronglySorted Z.lt (py_range lo hi).
Proof.
  unfold py_range. generalize (Z.to_nat (hi - lo)) as n. intros n.
  generalize 0%nat as s. induction n as [|n IH]; intros s; simpl.
  - constructor.
  - constructor; [apply IH|].
    apply Forall_forall. intros y Hy. apply in_map_iff in Hy.
    destruct Hy as [i [<- Hi]]. apply in_seq in Hi. lia.
Qed.

(** C2.  For every selected brand the rows of the table are exactly the
    records of the dataset whose brand is that string, character for
    character, in dataset order; and when there is such a record the table
    lists every column label of the dataset, in order, and has a page size
    of 9. *)
Theorem table_rows_columns_page (g : Globals) (sel : string) :
  exists children,
    result (update_table sel) g = Ok children /\
    table_rows children
    = filter (fun r => String.eqb (brand r) sel) (records (df g)) /\
    (forall r, In r (table_rows children)
               <-> In r (records (df g)) /\ brand r = sel) /\
    (table_rows children = [] \/
     exists title style style_table style_cell,
       children
       = [ H6 title style;
           DataTable "cars-table"
                     (map (fun c => (c, c)) (columns (df g)))
                     (table_rows children) style_table style_cell 9 ]).
Proof.
  unfold result.
  destruct (filter (fun r => String.eqb (brand r) sel) (records (df g)))
    as [|r0 rs] eqn:E.
  - rewrite (update_table_no_data g sel E). eexists.
    split; [reflexivity|]. simpl. split; [reflexivity|].
    split; [|now left].
    intros r. split; [intros []|]. intros [Hr Hb].
    assert (Hin : In r (filter (fun r => String.eqb (brand r) sel)
                               (records (df g)))).
    { apply filter_In. split; [assumption | now apply String.eqb_eq]. }
    now rewrite E in Hin.
  - rewrite update_table_shown; [|rewrite E; discriminate].
    eexists. split; [reflexivity|]. simpl. rewrite app_nil_r.
    split; [now rewrite E|]. split.
    + intros r. rewrite filter_In, String.eqb_eq. tauto.
    + right. now repeat eexists.
Qed.

(** C3.  For every selection of brands and every year range the price graph
    shows exactly one point per record of the dataset whose brand is
    selected and whose model year lies in the range, bounds included, with
    x the model year, y the price, the colour keyed by the brand and the
    model as hover text; so there are as many points as such records and no
    other record gives a point. *)
Theorem price_graph_points (g : Globals) (sel : list string)
        (lo hi : Z) (rest : list Z) :
  exists fig,
    result (update_price_graph sel (lo :: hi :: rest)) g = Ok fig /\
    Permutation (figure_points fig)
                (map point_of_row
                     (filter (in_selection sel lo hi) (records (df g)))) /\
    List.length (figure_points fig)
    = List.length (filter (in_selection sel lo hi) (records (df g))) /\
    (forall r, In r (filter (in_selection sel lo hi) (records (df g)))
               <-> In r (records (df g)) /\ In (brand r) sel
                   /\ lo <= model_year r <= hi).
Proof.
  assert (Hsel : forall r,
             In r (filter (in_selection sel lo hi) (records (df g)))
             <-> In r (records (df g)) /\ In (brand r) sel
                 /\ lo <= model_year r <= hi).
  { intros r. rewrite filter_In. unfold in_selection.
    rewrite !andb_true_iff, isin_In, !Z.leb_le. tauto. }
  unfold result.
  destruct (filter (in_selection sel lo hi) (records (df g)))
    as [|r0 rs] eqn:E.
  - rewrite (update_price_graph_no_data g sel lo hi rest E). eexists.
    split; [reflexivity|]. split; [apply perm_nil|].
    split; [reflexivity | exact Hsel].
  - rewrite update_price_graph_shown; [|rewrite E; discriminate].
    eexists. split; [reflexivity|].
    assert (Hp : Permutation
                   (figure_points
                      (px_scatter (Pandas.loc (df g) (in_selection sel lo hi))
                                  "Model Year" "Price ($)" (colors g)))
                   (map point_of_row (r0 :: rs))).
    { rewrite <- E. apply px_scatter_points. }
    split; [exact Hp|]. split; [|exact Hsel].
    apply Permutation_length in Hp. now rewrite length_map in Hp.
Qed.

(** C4.  When no selected brand is a brand of the dataset, the mileage
    chart and the price graph both return normally, with a figure that has
    no trace and whose title is the message shown to the user; neither
    raises. *)
Theorem disjoint_brands_no_data (mean : list Q -> Q) (g : Globals)
        (sel : list string) (lo hi : Z) (rest : list Z) :
  (forall r, In r (records (df g)) -> ~ In (brand r) sel) ->
  exists chart graph,
    result (update_mileage_chart mean sel) g = Ok chart /\
    data chart = [] /\
    title_text chart = Some "No data available for selected brands" /\
    chart = no_data "No data available for selected brands" /\
    result (update_price_graph sel (lo :: hi :: rest)) g = Ok graph /\
    data graph = [] /\
    title_text graph = Some "No data available for selected criteria" /\
    graph = no_data "No data available for selected criteria".
Proof.
  intros Hdis. unfold result.
  rewrite update_mileage_chart_no_data.
  - rewrite update_price_graph_no_data.
    + do 2 eexists. repeat split.
    + destruct (filter _ (records (df g))) as [|r rs] eqn:E; [reflexivity|].
      assert (Hr : In r (r :: rs)) by now left.
      rewrite <- E in Hr. apply filter_In in Hr. destruct Hr as [Hr Hb].
      unfold in_selection in Hb. rewrite !andb_true_iff in Hb.
      destruct Hb as [[Hb _] _]. apply isin_In in Hb. now apply Hdis in Hr.
  - destruct (filter _ (records (df g))) as [|r rs] eqn:E; [reflexivity|].
    assert (Hr : In r (r :: rs)) by now left.
    rewrite <- E in Hr. apply filter_In in Hr. destruct Hr as [Hr Hb].
    apply isin_In in Hb. now apply Hdis in Hr.
Qed.

Lemma disjoint_brands_no_data_witness :
  (forall r, In r (records two_fords) ->
             ~ In (brand r) ["Toyota"]) /\
  exists chart graph,
    result (update_mileage_chart exact_mean ["Toyota"])
           (mkGlobals two_fords palette) = Ok chart /\
    data chart = [] /\
    title_text chart = Some "No data available for selected brands" /\
    chart = no_data "No data available for selected brands" /\
    result (update_price_graph ["Toyota"] [2016; 2020])
           (mkGlobals two_fords palette) = Ok graph /\
    data graph = [] /\
    title_text graph = Some "No data available for selected criteria" /\
    graph = no_data "No data available for selected criteria".
Proof.
  assert (H : forall r, In r (records two_fords) ->
                        ~ In (brand r) ["Toyota"]).
  { simpl. intros r [<-|[<-|[]]] [E|[]]; discriminate E. }
  split; [exact H|].
  exact (disjoint_brands_no_data exact_mean (mkGlobals two_fords palette)
                                 ["Toyota"] 2016 2020 [] H).
Defined.

(** C5.  For a year range with min <= max whose graph is not empty, the
    tick values of the x axis are the integers min, min+1, .., max, each
    once and in increasing order, labelled by their decimal text; they are
    fixed by the range alone, whatever model years the points have. *)
Theorem price_graph_ticks (g : Globals) (sel : list string)
        (lo hi : Z) (rest : list Z) :
  lo <= hi ->
  filter (in_selection sel lo hi) (records (df g)) <> [] ->
  exists fig vals,
    result (update_price_graph sel (lo :: hi :: rest)) g = Ok fig /\
    fig <> no_data "No data available for selected criteria" /\
    tickmode fig = Some "array" /\
    tickvals fig = Some vals /\
    ticktext fig = Some (map PyStr.str_of_int vals) /\
    vals = py_range lo (hi + 1) /\
    (forall y, In y vals <-> lo <= y <= hi) /\
    StronglySorted Z.lt vals /\
    Z.of_nat (List.length vals) = hi - lo + 1.
Proof.
  intros Hle Hne. unfold result.
  rewrite (update_price_graph_shown g sel lo hi rest Hne).
  eexists. exists (py_range lo (hi + 1)).
  split; [reflexivity|]. split; [discriminate|].
  do 4 (split; [reflexivity|]).
  split; [|split].
  - intros y. rewrite py_range_In. lia.
  - apply py_range_sorted.
  - rewrite py_range_length. lia.
Qed.

Lemma price_graph_ticks_witness :
  exists fig vals,
    result (update_price_graph ["Ford"] [2016; 2020])
           (mkGlobals two_fords palette) = Ok fig /\
    fig <> no_data "No data available for selected criteria" /\
    tickmode fig = Some "array" /\
    tickvals fig = Some vals /\
    ticktext fig = Some (map PyStr.str_of_int vals) /\
    vals = py_range 2016 (2020 + 1) /\
    (forall y, In y vals <-> 2016 <= y <= 2020) /\
    StronglySorted Z.lt vals /\
    Z.of_nat (List.length vals) = 2020 - 2016 + 1.
Proof.
  apply (price_graph_ticks (mkGlobals two_fords palette) ["Ford"]
                           2016 2020 []).
  - lia.
  - vm_compute. discriminate.
Defined.

(** C6.  When no record of the dataset has the selected brand, the table
    callback returns the single message "No data available for " followed
    by the selected brand. *)
Theorem table_no_data_names_brand (g : Globals) (sel : string) :
  (forall r, In r (records (df g)) -> brand r <> sel) ->
  exists style,
    result (update_table sel) g
    = Ok [ H6 ("No data available for " ++ sel) style ] /\
    table_rows [ H6 ("No data available for " ++ sel) style ] = [].
Proof.
  intros Hno. unfold result. rewrite update_table_no_data.
  - eexists. split; reflexivity.
  - destruct (filter _ (records (df g))) as [|r rs] eqn:E; [reflexivity|].
    assert (Hr : In r (r :: rs)) by now left.
    rewrite <- E in Hr. apply filter_In in Hr. destruct Hr as [Hr Hb].
    apply String.eqb_eq in Hb. now apply Hno in Hr.
Qed.

Lemma table_no_data_names_brand_witness :
  exists style,
    result (update_table "Toyota") (mkGlobals two_fords palette)
    = Ok [ H6 "No data available for Toyota" style ] /\
    table_rows [ H6 "No data available for Toyota" style ] = [].
Proof.
  apply (table_no_data_names_brand (mkGlobals two_fords palette) "Toyota").
  simpl. intros r [<-|[<-|[]]]; discriminate.
Defined.

(** C10.  On the empty selection of brands the mileage chart and the price
    graph return normally, with the figure without data; neither raises. *)
Theorem empty_selection_no_data (mean : list Q -> Q) (g : Globals)
        (lo hi : Z) (rest : list Z) :
  result (update_mileage_chart mean []) g
  = Ok (no_data "No data available for selected brands") /\
  result (update_price_graph [] (lo :: hi :: rest)) g
  = Ok (no_data "No data available for selected criteria").
Proof.
  unfold result. split.
  - rewrite update_mileage_chart_no_data; [reflexivity|].
    induction (records (df g)); simpl; auto.
  - rewrite update_price_graph_no_data; [reflexivity|].
    induction (records (df g)); simpl; auto.
Qed.


(** ** A second run of a callback *)

(** A callback whose outcome is fixed by the module-level names, whatever
    figure objects exist, and which leaves those names alone. *)
Lemma blind_rerun {A : Type} (c : M A) (g : Globals) (o : Outcome A) :
  (forall figs, exists g',
      c (mkState (df g) (colors g) figs) = (o, g')
      /\ df g' = df g /\ colors g' = colors g) ->
  (df (state_after c g) = df g /\ colors (state_after c g) = colors g) /\
  result c (state_after c g) = result c g /\
  (forall figs, result c (mkState (df g) (colors g) figs) = result c g).
Proof.
  intros H.
  assert (R : forall figs, result c (mkState (df g) (colors g) figs) = o).
  { intros figs. destruct (H figs) as [g' [E _]]. unfold result.
    now rewrite E. }
  assert (Rg : result c g = o).
  { rewrite <- (R (figures g)). now destruct g. }
  destruct (H (figures g)) as [g' [E [Hd Hc]]].
  assert (Sg : state_after c g = g').
  { unfold state_after. destruct g; simpl in *. now rewrite E. }
  rewrite Sg, Rg. split; [split; assumption|]. split; [|exact R].
  rewrite <- (R (figures g')). rewrite <- Hd, <- Hc. now destruct g'.
Qed.

Lemma update_mileage_chart_blind (mean : list Q -> Q) (sel : list string)
      (g : Globals) :
  exists o, forall figs, exists g',
      update_mileage_chart mean sel (mkState (df g) (colors g) figs) = (o, g')
      /\ df g' = df g /\ colors g' = colors g.
Proof.
  destruct (filter (fun r => Pandas.isin (brand r) sel) (records (df g)))
    as [|r0 rs] eqn:E.
  - eexists. intros figs. eexists. split.
    + apply update_mileage_chart_no_data. exact E.
    + split; reflexivity.
  - destruct (px_bar (Pandas.groupby_mean mean
                        (Pandas.loc (df g)
                           (fun r => Pandas.isin (brand r) sel)))
                "Average Mileage by Vehicle Brand and Transmission Type"
                "Brand" "Average Mileage (mi)" (colors g))
      as [built|e] eqn:Hb.
    + eexists. intros figs. eexists. split.
      * rewrite update_mileage_chart_run;
          [|cbn [df]; rewrite E; discriminate].
        cbn [df colors]. rewrite Hb. reflexivity.
      * split; reflexivity.
    + eexists. intros figs. eexists. split.
      * rewrite update_mileage_chart_run;
          [|cbn [df]; rewrite E; discriminate].
        cbn [df colors]. rewrite Hb. reflexivity.
      * split; reflexivity.
Qed.

Lemma update_price_graph_blind (sel : list string) (years : list Z)
      (g : Globals) :
  exists o, forall figs, exists g',
      update_price_graph sel years (mkState (df g) (colors g) figs) = (o, g')
      /\ df g' = df g /\ colors g' = colors g.
Proof.
  destruct years as [|lo [|hi rest]].
  - eexists. intros figs. eexists. split; [reflexivity|]. split; reflexivity.
  - eexists. intros figs. eexists. split; [reflexivity|]. split; reflexivity.
  - destruct (filter (in_selection sel lo hi) (records (df g)))
      as [|r0 rs] eqn:E.
    + eexists. intros figs. eexists. split.
      * apply update_price_graph_no_data. exact E.
      * split; reflexivity.
    + eexists. intros figs. eexists. split.
      * rewrite update_price_graph_shown;
          [|cbn [df]; rewrite E; discriminate].
        cbn [df colors]. reflexivity.
      * split; reflexivity.
Qed.

Lemma update_table_blind (sel : string) (g : Globals) :
  exists o, forall figs, exists g',
      update_table sel (mkState (df g) (colors g) figs) = (o, g')
      /\ df g' = df g /\ colors g' = colors g.
Proof.
  destruct (filter (fun r => String.eqb (brand r) sel) (records (df g)))
    as [|r0 rs] eqn:E.
  - eexists. intros figs. eexists. split.
    + apply update_table_no_data. exact E.
    + split; reflexivity.
  - eexists. intros figs. eexists. split.
    + rewrite update_table_shown; [|cbn [df]; rewrite E; discriminate].
      cbn [df colors]. reflexivity.
    + split; reflexivity.
Qed.

(** C7.  Each of the three callbacks leaves the module-level names [df]
    and [colors] as it found them, although a run creates a figure object
    and changes it in place; its outcome (the figure or the children, or
    the exception) does not depend on the figure objects that exist, so a
    second run on the same arguments, after the first, has the same
    outcome. *)
Theorem callbacks_rerun_same (mean : list Q -> Q) (g : Globals)
        (selected_brands : list string) (selected_years : list Z)
        (selected_brand : string) :
  ((df (state_after (update_mileage_chart mean selected_brands) g) = df g /\
    colors (state_after (update_mileage_chart mean selected_brands) g)
    = colors g) /\
   result (update_mileage_chart mean selected_brands)
          (state_after (update_mileage_chart mean selected_brands) g)
   = result (update_mileage_chart mean selected_brands) g /\
   (forall figs,
       result (update_mileage_chart mean selected_brands)
              (mkState (df g) (colors g) figs)
       = result (update_mileage_chart mean selected_brands) g)) /\
  ((df (state_after (update_price_graph selected_brands selected_years) g)
    = df g /\
    colors (state_after (update_price_graph selected_brands selected_years) g)
    = colors g) /\
   result (update_price_graph selected_brands selected_years)
          (state_after (update_price_graph selected_brands selected_years) g)
   = result (update_price_graph selected_brands selected_years) g /\
   (forall figs,
       result (update_price_graph selected_brands selected_years)
              (mkState (df g) (colors g) figs)
       = result (update_price_graph selected_brands selected_years) g)) /\
  ((df (state_after (update_table selected_brand) g) = df g /\
    colors (state_after (update_table selected_brand) g) = colors g) /\
   result (update_table selected_brand)
          (state_after (update_table selected_brand) g)
   = result (update_table selected_brand) g /\
   (forall figs,
       result (update_table selected_brand) (mkState (df g) (colors g) figs)
       = result (update_table selected_brand) g)).
Proof.
  split; [|split].
  - destruct (update_mileage_chart_blind mean selected_brands g) as [o H].
    exact (blind_rerun _ g o H).
  - destruct (update_price_graph_blind selected_brands selected_years g)
      as [o H].
    exact (blind_rerun _ g o H).
  - destruct (update_table_blind selected_brand g) as [o H].
    exact (blind_rerun _ g o H).
Qed.

(** A run of a figure callback does change the state: the figure it
    returns is a new object. *)
Example run_creates_figure :
  figures (state_after (update_price_graph ["Ford"] [2016; 2020])
                       (mkGlobals two_fords palette))
  <> figures (mkGlobals two_fords palette).
Proof. vm_compute. discriminate. Qed.

(** ** Colours of the mileage chart *)

Lemma map_fst_enumerate {A : Type} (l : list A) :
  map fst (Plotly.enumerate l) = seq 0 (List.length l).
Proof.
  unfold Plotly.enumerate. generalize 0%nat.
  induction l as [|a l IH]; intros s; simpl; [reflexivity|].
  now rewrite IH.
Qed.

Lemma length_enumerate {A : Type} (l : list A) :
  List.length (Plotly.enumerate l) = List.length l.
Proof.
  unfold Plotly.enumerate. rewrite length_combine, length_seq.
  apply Nat.min_id.
Qed.


(** ** The order of the group keys *)

Lemma string_compare_refl (s : string) : String.compare s s = Eq.
Proof.
  pose proof (String.compare_antisym s s) as H.
  destruct (String.compare s s); simpl in H; congruence.
Qed.

Lemma string_compare_lt_trans (a b c : string) :
  String.compare a b = Lt -> String.compare b c = Lt ->
  String.compare a c = Lt.
Proof.
  intros Hab Hbc.
  assert (Lab : String.leb a b = true) by (unfold String.leb; now rewrite Hab).
  assert (Lbc : String.leb b c = true) by (unfold String.leb; now rewrite Hbc).
  pose proof (string_leb_trans a b c Lab Lbc) as Lac.
  unfold String.leb in Lac.
  destruct (String.compare a c) eqn:E; [|reflexivity|discriminate].
  apply String.compare_eq_iff in E. subst c.
  rewrite String.compare_antisym, Hab in Hbc. discriminate.
Qed.

Lemma key_le_total (k1 k2 : string * string) :
  Pandas.key_le k1 k2 = true \/ Pandas.key_le k2 k1 = true.
Proof.
  unfold Pandas.key_le.
  rewrite (String.compare_antisym (fst k2) (fst k1)).
  destruct (String.compare (fst k1) (fst k2)); simpl; auto.
  apply String.leb_total.
Qed.

Lemma key_le_trans (k1 k2 k3 : string * string) :
  Pandas.key_le k1 k2 = true -> Pandas.key_le k2 k3 = true ->
  Pandas.key_le k1 k3 = true.
Proof.
  unfold Pandas.key_le.
  destruct (String.compare (fst k1) (fst k2)) eqn:E12; try discriminate;
    destruct (String.compare (fst k2) (fst k3)) eqn:E23; try discriminate;
    intros H12 H23.
  - apply String.compare_eq_iff in E12, E23. rewrite E12, E23.
    rewrite string_compare_refl. now apply string_leb_trans with (snd k2).
  - apply String.compare_eq_iff in E12. now rewrite E12, E23.
  - apply String.compare_eq_iff in E23. now rewrite <- E23, E12.
  - now rewrite (string_compare_lt_trans _ _ _ E12 E23).
Qed.

Lemma group_keys_sorted (rows : list Row) :
  StronglySorted (fun k1 k2 => Pandas.key_le k1 k2 = true)
                 (Pandas.group_keys rows).
Proof. apply sort_sorted; [apply key_le_total | apply key_le_trans]. Qed.

Lemma filter_map_swap {A B : Type} (p : B -> bool) (f : A -> B) (l : list A) :
  filter p (map f l) = map f (filter (fun a => p (f a)) l).
Proof.
  induction l as [|a l IH]; simpl; [reflexivity|].
  destruct (p (f a)); simpl; now rewrite IH.
Qed.

(** Among sorted distinct keys, those of one transmission have strictly
    increasing brands. *)
Lemma facet_brands_increasing (keys : list (string * string)) (c : string) :
  StronglySorted (fun k1 k2 => Pandas.key_le k1 k2 = true) keys ->
  NoDup keys ->
  StronglySorted (fun a b => String.ltb a b = true)
                 (map fst (filter (fun k => String.eqb (snd k) c) keys)).
Proof.
  induction 1 as [|k keys Hs IH Hall]; intros Hnd; simpl; [constructor|].
  inversion Hnd as [|? ? Hnotin Hnd']; subst.
  destruct (String.eqb (snd k) c) eqn:Ek; [|now apply IH].
  simpl. constructor; [now apply IH|].
  apply Forall_forall. intros a Ha. apply in_map_iff in Ha.
  destruct Ha as [k' [<- Hk']]. apply filter_In in Hk'.
  destruct Hk' as [Hin Ek']. rewrite Forall_forall in Hall.
  specialize (Hall k' Hin). apply String.eqb_eq in Ek, Ek'.
  unfold Pandas.key_le in Hall. unfold String.ltb.
  destruct (String.compare (fst k) (fst k')) eqn:E;
    [|reflexivity|discriminate].
  apply String.compare_eq_iff in E. exfalso. apply Hnotin.
  destruct k as [a1 t1], k' as [a2 t2]. simpl in *. now subst.
Qed.


Lemma px_bar_names (frame : list (string * string * Q)) (t xl yl : string)
      (sequence : list string) (fig : Figure) :
  px_bar frame t xl yl sequence = Ok fig ->
  map trace_name (data fig)
  = Pandas.unique String.eqb (map snd (map fst frame)).
Proof.
  unfold px_bar. destruct (too_many_facets _); [discriminate|].
  intros H. injection H as <-. simpl. rewrite map_map.
  rewrite (map_enumerate (fun c => c)); [|reflexivity].
  now rewrite map_id, map_map.
Qed.

Lemma px_bar_colors (frame : list (string * string * Q)) (t xl yl : string)
      (sequence : list string) (fig : Figure) :
  px_bar frame t xl yl sequence = Ok fig ->
  map trace_color (data fig)
  = map (cycle sequence) (seq 0 (List.length (data fig))).
Proof.
  unfold px_bar. destruct (too_many_facets _); [discriminate|].
  intros H. injection H as <-. simpl.
  rewrite length_map, length_enumerate, map_map.
  simpl. rewrite <- map_fst_enumerate. now rewrite map_map.
Qed.

(** Sorted distinct keys are in strictly increasing order: by brand, and
    for one brand by transmission. *)
Lemma group_keys_increasing (rows : list Row) :
  StronglySorted
    (fun k1 k2 : string * string =>
       String.compare (fst k1) (fst k2) = Lt
       \/ (fst k1 = fst k2 /\ String.compare (snd k1) (snd k2) = Lt))
    (Pandas.group_keys rows).
Proof.
  pose proof (group_keys_sorted rows) as Hs.
  pose proof (group_keys_NoDup rows) as Hn.
  induction Hs as [|k keys Hs IH Hall]; [constructor|].
  inversion Hn as [|? ? Hnotin Hn']; subst.
  constructor; [now apply IH|].
  rewrite Forall_forall in *. intros k' Hk'. specialize (Hall k' Hk').
  unfold Pandas.key_le, PyStr.le, String.leb in Hall.
  destruct (String.compare (fst k) (fst k')) eqn:E1;
    [|now left|discriminate].
  apply String.compare_eq_iff in E1. right. split; [exact E1|].
  destruct (String.compare (snd k) (snd k')) eqn:E2;
    [|reflexivity|discriminate].
  apply String.compare_eq_iff in E2. exfalso. apply Hnotin.
  destruct k, k'. simpl in *. now subst.
Qed.

(** The traces of a run of the mileage chart on records whose
    transmissions fit. *)
Lemma chart_traces (mean : list Q -> Q) (g : Globals) (sel ts : list string) :
  (forall r, In r (records (df g)) -> In (brand r) sel ->
             In (transmission r) ts) ->
  (List.length ts < 52)%nat ->
  exists fig,
    update_mileage_chart mean sel g = (Ok fig, with_figure g fig) /\
    map trace_name (data fig)
    = Pandas.unique String.eqb
        (map snd
           (Pandas.group_keys
              (filter (fun r => Pandas.isin (brand r) sel)
                      (records (df g))))) /\
    map trace_color (data fig)
    = map (cycle (colors g)) (seq 0 (List.length (data fig))).
Proof.
  intros Hts Hlen.
  destruct (filter (fun r => Pandas.isin (brand r) sel) (records (df g)))
    as [|r0 rs] eqn:E.
  - rewrite update_mileage_chart_no_data; [|exact E]. eexists.
    split; [reflexivity|]. split; reflexivity.
  - destruct (px_bar_returns _
                "Average Mileage by Vehicle Brand and Transmission Type"
                "Brand" "Average Mileage (mi)" (colors g)
                (selected_facets_fit mean (df g) sel ts Hts Hlen))
      as [built Hb].
    destruct (update_mileage_chart_built mean g sel built)
      as [fig [Hrun [Hdata _]]]; [rewrite E; discriminate | exact Hb |].
    exists fig. split; [exact Hrun|]. rewrite Hdata.
    rewrite (px_bar_names _ _ _ _ _ _ Hb), (px_bar_colors _ _ _ _ _ _ Hb).
    rewrite groupby_mean_keys. unfold Pandas.loc. cbn [records]. rewrite E.
    split; reflexivity.
Qed.

Lemma selected_transmission_In (d : DataFrame) (sel : list string)
      (t : string) :
  In t (map snd
          (Pandas.group_keys
             (filter (fun r => Pandas.isin (brand r) sel) (records d))))
  <-> exists r, In r (records d) /\ In (brand r) sel /\ transmission r = t.
Proof.
  rewrite in_map_iff. split.
  - intros [[b t'] [Ht Hk]]. simpl in Ht. subst t'.
    apply selected_key_In in Hk. destruct Hk as [r [Hr [Hs [_ Ht]]]].
    exists r. tauto.
  - intros [r [Hr [Hs Ht]]]. exists (brand r, t). split; [reflexivity|].
    apply selected_key_In. exists r. tauto.
Qed.

(** C8, as the code has it.  In one run of the mileage chart, on records
    whose transmissions are among fewer than 52 values, the traces are the
    distinct transmissions of the selected records in order of first
    appearance among the (brand, transmission) pairs of those records taken
    in increasing order, by brand and then by transmission; the i-th trace
    has the colour at position i mod 6 of the palette of six colours.  The
    colour of a transmission is fixed by its position in that run, not by
    the transmission alone. *)
Theorem mileage_colors_by_position
        (mean : list Q -> Q) (d : DataFrame) (sel ts : list string) :
  (forall r, In r (records d) -> In (brand r) sel ->
             In (transmission r) ts) ->
  (List.length ts < 52)%nat ->
  exists fig keys,
    result (update_mileage_chart mean sel) (mkGlobals d palette) = Ok fig /\
    StronglySorted
      (fun k1 k2 : string * string =>
         String.compare (fst k1) (fst k2) = Lt
         \/ (fst k1 = fst k2 /\ String.compare (snd k1) (snd k2) = Lt))
      keys /\
    (forall b t,
        In (b, t) keys
        <-> exists r, In r (records d) /\ In (brand r) sel
                      /\ brand r = b /\ transmission r = t) /\
    map trace_name (data fig) = Pandas.unique String.eqb (map snd keys) /\
    NoDup (map trace_name (data fig)) /\
    (forall t,
        In t (map trace_name (data fig))
        <-> exists r, In r (records d) /\ In (brand r) sel
                      /\ transmission r = t) /\
    map trace_color (data fig)
    = map (fun i => nth (i mod 6) palette EmptyString)
          (seq 0 (List.length (data fig))) /\
    List.length palette = 6%nat.
Proof.
  intros Hts Hlen.
  destruct (chart_traces mean (mkGlobals d palette) sel ts Hts Hlen)
    as [fig [Hrun [Hn Hc]]].
  cbn [mkGlobals df colors] in Hn, Hc.
  exists fig.
  exists (Pandas.group_keys
            (filter (fun r => Pandas.isin (brand r) sel) (records d))).
  unfold result. rewrite Hrun.
  split; [reflexivity|].
  split; [apply group_keys_increasing|].
  split; [intros b t; apply selected_key_In|].
  split; [exact Hn|].
  split; [rewrite Hn; apply unique_NoDup, String.eqb_eq|].
  split; [|split; [exact Hc | reflexivity]].
  intros t. rewrite Hn, (unique_In _ String.eqb_eq).
  apply selected_transmission_In.
Qed.

Lemma mileage_colors_by_position_witness :
  (forall r, In r (records ford_and_audis) -> In (brand r) ["Audi"] ->
             In (transmission r) ["automatic"; "manual"]) /\
  (List.length ["automatic"; "manual"] < 52)%nat /\
  exists fig keys,
    result (update_mileage_chart exact_mean ["Audi"])
           (mkGlobals ford_and_audis palette) = Ok fig /\
    StronglySorted
      (fun k1 k2 : string * string =>
         String.compare (fst k1) (fst k2) = Lt
         \/ (fst k1 = fst k2 /\ String.compare (snd k1) (snd k2) = Lt))
      keys /\
    (forall b t,
        In (b, t) keys
        <-> exists r, In r (records ford_and_audis) /\ In (brand r) ["Audi"]
                      /\ brand r = b /\ transmission r = t) /\
    map trace_name (data fig) = Pandas.unique String.eqb (map snd keys) /\
    NoDup (map trace_name (data fig)) /\
    (forall t,
        In t (map trace_name (data fig))
        <-> exists r, In r (records ford_and_audis) /\ In (brand r) ["Audi"]
                      /\ transmission r = t) /\
    map trace_color (data fig)
    = map (fun i => nth (i mod 6) palette EmptyString)
          (seq 0 (List.length (data fig))) /\
    List.length palette = 6%nat.
Proof.
  assert (H1 : forall r, In r (records ford_and_audis) ->
                         In (brand r) ["Audi"] ->
                         In (transmission r) ["automatic"; "manual"]).
  { simpl. intros r [<-|[<-|[<-|[]]]] _; simpl; tauto. }
  assert (H2 : (List.length ["automatic"; "manual"] < 52)%nat)
    by (simpl; lia).
  split; [exact H1|]. split; [exact H2|].
  exact (mileage_colors_by_position exact_mean ford_and_audis ["Audi"]
           ["automatic"; "manual"] H1 H2).
Defined.

(** Counterexample to C8 as the specification has it: over one dataset the
    transmission "manual" is red when only Ford is selected and blue when
    only Audi is selected. *)
Lemma manual_color_changes_with_selection :
  exists fig1 fig2,
    result (update_mileage_chart exact_mean ["Ford"])
           (mkGlobals ford_and_audis palette)
    = Ok fig1 /\
    result (update_mileage_chart exact_mean ["Audi"])
           (mkGlobals ford_and_audis palette)
    = Ok fig2 /\
    color_of fig1 "manual" = Some "#EF553B" /\
    color_of fig2 "manual" = Some "#377eb8" /\
    color_of fig1 "manual" <> color_of fig2 "manual".
Proof.
  eexists. eexists.
  split; [vm_compute; reflexivity|].
  split; [vm_compute; reflexivity|].
  split; [reflexivity|]. split; [reflexivity|].
  vm_compute. discriminate.
Qed.
(** ** Extremes of a series *)

Lemma fold_min_spec (l : list Z) (x : Z) :
  In (fold_left Z.min l x) (x :: l) /\
  forall y, In y (x :: l) -> fold_left Z.min l x <= y.
Proof.
  revert x. induction l as [|z l IH]; intros x; simpl.
  - split; [now left|]. intros y [<-|[]]. lia.
  - destruct (IH (Z.min x z)) as [Hin Hle]. split.
    + destruct Hin as [Hin|Hin]; [|now right; right].
      rewrite <- Hin. destruct (Z.min_spec x z) as [[_ ->]|[_ ->]]; auto.
    + intros y Hy.
      assert (Hm : fold_left Z.min l (Z.min x z) <= Z.min x z)
        by (apply Hle; now left).
      destruct Hy as [<-|[<-|Hy]]; [lia|lia|].
      apply Hle. now right.
Qed.

Lemma fold_max_spec (l : list Z) (x : Z) :
  In (fold_left Z.max l x) (x :: l) /\
  forall y, In y (x :: l) -> y <= fold_left Z.max l x.
Proof.
  revert x. induction l as [|z l IH]; intros x; simpl.
  - split; [now left|]. intros y [<-|[]]. lia.
  - destruct (IH (Z.max x z)) as [Hin Hle]. split.
    + destruct Hin as [Hin|Hin]; [|now right; right].
      rewrite <- Hin. destruct (Z.max_spec x z) as [[_ ->]|[_ ->]]; auto.
    + intros y Hy.
      assert (Hm : Z.max x z <= fold_left Z.max l (Z.max x z))
        by (apply Hle; now left).
      destruct Hy as [<-|[<-|Hy]]; [lia|lia|].
      apply Hle. now right.
Qed.

Lemma sorted_brands_of_In (lower : string -> string) (d : DataFrame)
      (b : string) :
  In b (sorted_brands_of lower d)
  <-> exists r, In r (records d) /\ brand r = b.
Proof.
  unfold sorted_brands_of.
  rewrite sort_In, (unique_In _ String.eqb_eq), in_map_iff.
  split; intros [r [H1 H2]]; exists r; tauto.
Qed.


(** ** The module body *)

Lemma series_min_spec (s : list Z) (m : Z) :
  Pandas.series_min s = Some m -> In m s /\ forall y, In y s -> m <= y.
Proof.
  destruct s as [|x s]; simpl; [discriminate|].
  intros H. injection H as <-. apply fold_min_spec.
Qed.

Lemma series_max_spec (s : list Z) (m : Z) :
  Pandas.series_max s = Some m -> In m s /\ forall y, In y s -> y <= m.
Proof.
  destruct s as [|x s]; simpl; [discriminate|].
  intros H. injection H as <-. apply fold_max_spec.
Qed.

(** What the module body binds its names to, on a frame with records. *)
Lemma load_app_fields (lower : string -> string) (d : DataFrame) :
  records d <> [] ->
  exists app,
    load_app lower d = Ok app /\
    app_globals app = mkGlobals d palette /\
    sorted_brands app = sorted_brands_of lower d /\
    nth_error (sorted_brands_of lower d) 0 = Some (first_brand app) /\
    Pandas.series_min (map model_year (records d)) = Some (min_year app) /\
    Pandas.series_max (map model_year (records d)) = Some (max_year app) /\
    rounded_min_year app
    = Int64.mul (Int64.floordiv (min_year app) 10) 10 /\
    rounded_max_year app
    = Int64.add
        (Int64.mul (Int64.floordiv (Int64.add (max_year app) 5) 10) 10) 5 /\
    layout app
    = mkLayout
        (mkDropdown "brand-dropdown-multi"
                    (map (fun b => (b, b)) (sorted_brands app))
                    (Multi [first_brand app]) true false)
        (mkRangeSlider "year-range-slider" (min_year app) (max_year app) 1
           [min_year app; max_year app]
           (map (fun y => (y, PyStr.str_of_int y))
                (py_range (min_year app) (Int64.add (max_year app) 1))))
        (mkDropdown "brand-dropdown-single"
                    (map (fun b => (b, b)) (sorted_brands app))
                    (Single (first_brand app)) false false).
Proof.
  intros Hne. unfold load_app.
  destruct (nth_error (sorted_brands_of lower d) 0) as [first|] eqn:Hfirst.
  2:{ exfalso. apply nth_error_None in Hfirst.
      destruct (records d) as [|r0 rs] eqn:E; [contradiction|].
      assert (Hin : In (brand r0) (sorted_brands_of lower d)).
      { apply sorted_brands_of_In. exists r0. rewrite E.
        split; [now left | reflexivity]. }
      destruct (sorted_brands_of lower d);
        [destruct Hin | simpl in Hfirst; lia]. }
  destruct (records d) as [|r0 rs] eqn:E; [contradiction|].
  cbn [map Pandas.series_min Pandas.series_max].
  eexists. split; [reflexivity|]. cbn [app_globals sorted_brands first_brand
    min_year max_year rounded_min_year rounded_max_year layout].
  repeat split.
Qed.



(** On brands written in ASCII letters, where [str.lower] is
    [PyStr.ascii_lower]: "audi" comes before "BMW" and "Ford", which by
    code point come before it. *)
Example mixed_case_brands_in_order :
  exists app,
    load_app PyStr.ascii_lower mixed_case_cars = Ok app /\
    sorted_brands app = ["audi"; "BMW"; "Ford"] /\
    first_brand app = "audi" /\
    dd_value (brand_dropdown_multi (layout app)) = Multi ["audi"] /\
    dd_value (brand_dropdown_single (layout app)) = Single "audi" /\
    rs_value (year_range_slider (layout app)) = [2015; 2019] /\
    Pandas.sort String.leb ["Ford"; "audi"; "BMW"] = ["BMW"; "Ford"; "audi"].
Proof. eexists. repeat split. Qed.

(* ------------------------------------------------------------------ *)
(** * Further properties of the module body and of the callbacks *)

Lemma wrap_small (z : Z) :
  -9223372036854775808 <= z < 9223372036854775808 -> Int64.wrap z = z.
Proof. intros H. unfold Int64.wrap. rewrite Z.mod_small; lia. Qed.

(** X1.  On a frame with records whose model years are at least 10 away
    from the ends of [numpy.int64], [rounded_min_year] is the multiple of
    10 at or below [min_year] and less than 10 below it, and
    [rounded_max_year] ends in 5, lies above [max_year] and at most 10
    above it. *)
Theorem rounded_years_bounds (lower : string -> string) (d : DataFrame) :
  records d <> [] ->
  (forall r, In r (records d) ->
             -9223372036854775798 <= model_year r <= 9223372036854775797) ->
  exists app,
    load_app lower d = Ok app /\
    rounded_min_year app mod 10 = 0 /\
    rounded_min_year app <= min_year app < rounded_min_year app + 10 /\
    rounded_max_year app mod 10 = 5 /\
    max_year app < rounded_max_year app <= max_year app + 10.
Proof.
  intros Hne Hrange.
  destruct (load_app_fields lower d Hne)
    as [app [Hload [_ [_ [_ [Hmin [Hmax [Hlo [Hhi _]]]]]]]]].
  destruct (series_min_spec _ _ Hmin) as [Hmi _].
  destruct (series_max_spec _ _ Hmax) as [Hma _].
  apply in_map_iff in Hmi. destruct Hmi as [r1 [E1 Hr1]].
  apply in_map_iff in Hma. destruct Hma as [r2 [E2 Hr2]].
  pose proof (Hrange r1 Hr1) as B1. rewrite E1 in B1.
  pose proof (Hrange r2 Hr2) as B2. rewrite E2 in B2.
  exists app. split; [exact Hload|]. rewrite Hlo, Hhi.
  unfold Int64.add, Int64.mul, Int64.floordiv.
  pose proof (Z.div_mod (min_year app) 10 ltac:(lia)) as D1.
  pose proof (Z.mod_pos_bound (min_year app) 10 ltac:(lia)) as M1.
  pose proof (Z.div_mod (max_year app + 5) 10 ltac:(lia)) as D2.
  pose proof (Z.mod_pos_bound (max_year app + 5) 10 ltac:(lia)) as M2.
  rewrite (wrap_small (min_year app / 10)) by lia.
  rewrite (wrap_small (min_year app / 10 * 10)) by lia.
  rewrite (wrap_small (max_year app + 5)) by lia.
  rewrite (wrap_small ((max_year app + 5) / 10)) by lia.
  rewrite (wrap_small ((max_year app + 5) / 10 * 10)) by lia.
  rewrite (wrap_small ((max_year app + 5) / 10 * 10 + 5)) by lia.
  split; [apply Z.mod_mul; lia|].
  split; [lia|].
  split; [|lia].
  rewrite Z.add_comm, Z.mod_add by lia. reflexivity.
Qed.

Lemma rounded_years_bounds_witness :
  records two_fords <> [] /\
  (forall r, In r (records two_fords) ->
             -9223372036854775798 <= model_year r <= 9223372036854775797) /\
  exists app,
    load_app PyStr.ascii_lower two_fords = Ok app /\
    rounded_min_year app mod 10 = 0 /\
    rounded_min_year app <= min_year app < rounded_min_year app + 10 /\
    rounded_max_year app mod 10 = 5 /\
    max_year app < rounded_max_year app <= max_year app + 10.
Proof.
  assert (H : records two_fords <> []) by discriminate.
  assert (H' : forall r, In r (records two_fords) ->
                 -9223372036854775798 <= model_year r <= 9223372036854775797).
  { simpl. intros r [<-|[<-|[]]]; simpl; lia. }
  split; [exact H|]. split; [exact H'|].
  exact (rounded_years_bounds PyStr.ascii_lower two_fords H H').
Defined.

(** At the greatest [numpy.int64] the sums wrap: the rounded maximum is
    negative and the slider has no mark. *)
Example last_year_wraps :
  exists app,
    load_app PyStr.ascii_lower car_of_the_last_year = Ok app /\
    max_year app = 9223372036854775807 /\
    rounded_max_year app = -9223372036854775805 /\
    rs_marks (year_range_slider (layout app)) = [].
Proof. eexists. repeat split. Qed.

(** X2.  The module body raises [IndexError] exactly when the frame has no
    record; on any other frame it returns the application. *)
Theorem load_app_raises_iff_no_record (lower : string -> string)
        (d : DataFrame) :
  (load_app lower d = Raise IndexError <-> records d = []) /\
  (records d = [] \/ exists app, load_app lower d = Ok app).
Proof.
  destruct (records d) as [|r0 rs] eqn:E.
  - split; [|now left]. split; [reflexivity|]. intros _.
    unfold load_app, sorted_brands_of. rewrite E. reflexivity.
  - assert (Hne : records d <> []) by (rewrite E; discriminate).
    destruct (load_app_fields lower d Hne) as [app [Hload _]].
    split; [|right; now exists app].
    rewrite Hload. split; discriminate.
Qed.

(** X3.  On a frame with records whose model years are [numpy.int64]
    values below the greatest one, the year slider runs from the least to
    the greatest model year with least <= greatest; its marks are one per
    integer year of that span, in increasing order, each labelled by the
    decimal numeral of the year; every model year of the dataset has a
    mark, and so have both ends of the default value. *)
Theorem slider_marks_cover_years (lower : string -> string) (d : DataFrame) :
  records d <> [] ->
  (forall r, In r (records d) ->
             -9223372036854775808 <= model_year r <= 9223372036854775806) ->
  exists app,
    load_app lower d = Ok app /\
    let slider := year_range_slider (layout app) in
    rs_min slider <= rs_max slider /\
    (forall y label, In (y, label) (rs_marks slider)
                     <-> rs_min slider <= y <= rs_max slider
                         /\ label = NilZero.string_of_int (Z.to_int y)) /\
    StronglySorted Z.lt (map fst (rs_marks slider)) /\
    (forall r, In r (records d) ->
               In (model_year r) (map fst (rs_marks slider))) /\
    Forall (fun y => In y (map fst (rs_marks slider))) (rs_value slider).
Proof.
  intros Hne Hrange.
  destruct (load_app_fields lower d Hne)
    as [app [Hload [_ [_ [_ [Hmin [Hmax [_ [_ Hlay]]]]]]]]].
  exists app. split; [exact Hload|]. rewrite Hlay. cbn [year_range_slider
    rs_min rs_max rs_marks rs_value].
  destruct (series_min_spec _ _ Hmin) as [Hmi Hlo].
  destruct (series_max_spec _ _ Hmax) as [Hma Hhi].
  assert (Hle : min_year app <= max_year app) by now apply Hlo.
  assert (Hw : Int64.add (max_year app) 1 = max_year app + 1).
  { apply in_map_iff in Hma. destruct Hma as [r [E Hr]].
    pose proof (Hrange r Hr) as B. rewrite E in B.
    unfold Int64.add. apply wrap_small. lia. }
  rewrite Hw.
  assert (Hmark : forall y label,
             In (y, label)
                (map (fun y => (y, PyStr.str_of_int y))
                     (py_range (min_year app) (max_year app + 1)))
             <-> min_year app <= y <= max_year app
                 /\ label = NilZero.string_of_int (Z.to_int y)).
  { intros y label. rewrite in_map_iff. split.
    - intros [z [Hz Hin]]. injection Hz as -> <-.
      apply py_range_In in Hin. split; [lia | reflexivity].
    - intros [Hy ->]. exists y. split; [reflexivity|].
      apply py_range_In. lia. }
  assert (Hkeys : map fst
                    (map (fun y => (y, PyStr.str_of_int y))
                         (py_range (min_year app) (max_year app + 1)))
                  = py_range (min_year app) (max_year app + 1)).
  { rewrite map_map. simpl. apply map_id. }
  split; [exact Hle|]. split; [exact Hmark|].
  rewrite Hkeys.
  split; [apply py_range_sorted|]. split.
  - intros r Hr. apply py_range_In.
    pose proof (Hlo _ (in_map model_year _ r Hr)).
    pose proof (Hhi _ (in_map model_year _ r Hr)). lia.
  - repeat constructor; apply py_range_In; lia.
Qed.

Lemma slider_marks_cover_years_witness :
  records two_fords <> [] /\
  (forall r, In r (records two_fords) ->
             -9223372036854775808 <= model_year r <= 9223372036854775806) /\
  exists app,
    load_app PyStr.ascii_lower two_fords = Ok app /\
    let slider := year_range_slider (layout app) in
    rs_min slider <= rs_max slider /\
    (forall y label, In (y, label) (rs_marks slider)
                     <-> rs_min slider <= y <= rs_max slider
                         /\ label = NilZero.string_of_int (Z.to_int y)) /\
    StronglySorted Z.lt (map fst (rs_marks slider)) /\
    (forall r, In r (records two_fords) ->
               In (model_year r) (map fst (rs_marks slider))) /\
    Forall (fun y => In y (map fst (rs_marks slider))) (rs_value slider).
Proof.
  assert (H : records two_fords <> []) by discriminate.
  assert (H' : forall r, In r (records two_fords) ->
                 -9223372036854775808 <= model_year r <= 9223372036854775806).
  { simpl. intros r [<-|[<-|[]]]; simpl; lia. }
  split; [exact H|]. split; [exact H'|].
  exact (slider_marks_cover_years PyStr.ascii_lower two_fords H H').
Defined.

(** ** The price graph: year lists and year ranges *)

(** X4.  When the year list has fewer than two entries the price callback
    raises [IndexError], whatever the dataset and the selected brands, and
    leaves the module state as it was. *)
Theorem price_graph_short_years_raise (g : Globals) (sel : list string)
        (years : list Z) :
  (List.length years < 2)%nat ->
  update_price_graph sel years g = (Raise IndexError, g).
Proof.
  intros H. destruct years as [|lo [|hi rest]]; [reflexivity|reflexivity|].
  simpl in H. lia.
Qed.

Lemma price_graph_short_years_raise_witness :
  (List.length [2016] < 2)%nat /\
  update_price_graph ["Ford"] [2016] (mkGlobals two_fords palette)
  = (Raise IndexError, mkGlobals two_fords palette).
Proof.
  assert (H : (List.length [2016] < 2)%nat) by (simpl; lia).
  split; [exact H|].
  exact (price_graph_short_years_raise (mkGlobals two_fords palette)
                                       ["Ford"] [2016] H).
Defined.

(** X5.  The price callback reads the first two entries of the year list
    only: further entries do not change what it returns. *)
Theorem price_graph_reads_two_years (g : Globals) (sel : list string)
        (lo hi : Z) (rest : list Z) :
  update_price_graph sel (lo :: hi :: rest) g
  = update_price_graph sel [lo; hi] g.
Proof.
  destruct (filter (in_selection sel lo hi) (records (df g))) eqn:E.
  - now rewrite !update_price_graph_no_data.
  - rewrite !update_price_graph_shown; [reflexivity| |];
      rewrite E; discriminate.
Qed.

(** X6.  A year range whose upper end is below its lower end selects no
    record: the price callback returns the figure without data and does
    not raise. *)
Theorem price_graph_inverted_range (g : Globals) (sel : list string)
        (lo hi : Z) (rest : list Z) :
  hi < lo ->
  result (update_price_graph sel (lo :: hi :: rest)) g
  = Ok (no_data "No data available for selected criteria").
Proof.
  intros H. unfold result. rewrite update_price_graph_no_data; [reflexivity|].
  induction (records (df g)) as [|r rs IH]; simpl; [reflexivity|].
  unfold in_selection at 1.
  destruct (lo <=? model_year r) eqn:E1;
    destruct (model_year r <=? hi) eqn:E2;
    rewrite ?andb_false_r; simpl; try exact IH.
  apply Z.leb_le in E1, E2. lia.
Qed.

Lemma price_graph_inverted_range_witness :
  2018 < 2020 /\
  result (update_price_graph ["Ford"] [2020; 2018])
         (mkGlobals two_fords palette)
  = Ok (no_data "No data available for selected criteria").
Proof.
  assert (H : 2018 < 2020) by lia.
  split; [exact H|].
  exact (price_graph_inverted_range (mkGlobals two_fords palette) ["Ford"]
                                    2020 2018 [] H).
Defined.

(** ** The selection of brands counts as a set, on the brands of the dataset *)

Lemma isin_filter_ext (rows : list Row) (sel1 sel2 : list string)
      (p : Row -> bool) :
  (forall r, In r rows -> (In (brand r) sel1 <-> In (brand r) sel2)) ->
  filter (fun r => Pandas.isin (brand r) sel1 && p r) rows
  = filter (fun r => Pandas.isin (brand r) sel2 && p r) rows.
Proof.
  intros H. apply filter_ext_in. intros r Hr. f_equal.
  apply eq_true_iff_eq. rewrite !isin_In. now apply H.
Qed.

(** X7.  The mileage chart and the price graph depend on the selected
    brands only through which brands of the dataset are selected: the order
    of the selection, repeated brands and brands that no record has do not
    change the figure, its colours included. *)
Theorem figures_depend_on_selected_dataset_brands
        (mean : list Q -> Q) (g : Globals) (sel1 sel2 : list string)
        (years : list Z) :
  (forall r, In r (records (df g)) ->
             (In (brand r) sel1 <-> In (brand r) sel2)) ->
  update_mileage_chart mean sel1 g = update_mileage_chart mean sel2 g /\
  update_price_graph sel1 years g = update_price_graph sel2 years g.
Proof.
  intros H. split.
  - pose proof (isin_filter_ext (records (df g)) sel1 sel2
                                (fun _ => true) H) as E.
    assert (E' : filter (fun r => Pandas.isin (brand r) sel1) (records (df g))
                 = filter (fun r => Pandas.isin (brand r) sel2)
                          (records (df g))).
    { erewrite filter_ext; [erewrite E|]; [apply filter_ext|];
        intros r; simpl; now rewrite andb_true_r. }
    destruct (filter (fun r => Pandas.isin (brand r) sel2) (records (df g)))
      as [|r0 rs] eqn:E2.
    + rewrite !update_mileage_chart_no_data; congruence.
    + rewrite !update_mileage_chart_run; try congruence.
      unfold Pandas.loc, Pandas.groupby_mean. cbn [records columns].
      now rewrite E', E2.
  - destruct years as [|lo [|hi rest]]; [reflexivity|reflexivity|].
    assert (E : filter (in_selection sel1 lo hi) (records (df g))
                = filter (in_selection sel2 lo hi) (records (df g))).
    { unfold in_selection.
      pose proof (isin_filter_ext (records (df g)) sel1 sel2
                    (fun r => (lo <=? model_year r) && (model_year r <=? hi))
                    H) as E.
      erewrite filter_ext; [erewrite E|]; [apply filter_ext|];
        intros r; simpl; now rewrite andb_assoc. }
    destruct (filter (in_selection sel2 lo hi) (records (df g))) eqn:E2.
    + rewrite !update_price_graph_no_data; congruence.
    + rewrite !update_price_graph_shown; try congruence.
      unfold Pandas.loc, px_scatter. cbn [records columns].
      now rewrite E, E2.
Qed.

Lemma figures_depend_on_selected_dataset_brands_witness :
  (forall r, In r (records two_fords) ->
             (In (brand r) ["Ford"]
              <-> In (brand r) ["Toyota"; "Ford"; "Ford"]))
  /\ update_mileage_chart exact_mean ["Ford"] (mkGlobals two_fords palette)
     = update_mileage_chart exact_mean ["Toyota"; "Ford"; "Ford"]
                            (mkGlobals two_fords palette)
  /\ update_price_graph ["Ford"] [2016; 2020] (mkGlobals two_fords palette)
     = update_price_graph ["Toyota"; "Ford"; "Ford"] [2016; 2020]
                          (mkGlobals two_fords palette).
Proof.
  assert (H : forall r, In r (records two_fords) ->
                (In (brand r) ["Ford"]
                 <-> In (brand r) ["Toyota"; "Ford"; "Ford"])).
  { simpl. intros r [<-|[<-|[]]]; simpl; tauto. }
  split; [exact H|].
  exact (figures_depend_on_selected_dataset_brands exact_mean
           (mkGlobals two_fords palette) ["Ford"] ["Toyota"; "Ford"; "Ford"]
           [2016; 2020] H).
Defined.

(** ** When a view has data *)

Lemma price_points_perm (g : Globals) (sel : list string)
      (lo hi : Z) (rest : list Z) :
  exists fig,
    update_price_graph sel (lo :: hi :: rest) g = (Ok fig, with_figure g fig) /\
    Permutation (figure_points fig)
                (map point_of_row
                     (filter (in_selection sel lo hi) (records (df g)))).
Proof.
  destruct (filter (in_selection sel lo hi) (records (df g)))
    as [|r0 rs] eqn:E.
  - rewrite (update_price_graph_no_data g sel lo hi rest E). eexists.
    split; [reflexivity | apply perm_nil].
  - rewrite update_price_graph_shown; [|rewrite E; discriminate].
    eexists. split; [reflexivity|]. rewrite <- E.
    apply (px_scatter_points (Pandas.loc (df g) (in_selection sel lo hi))).
Qed.

Lemma update_table_rows (g : Globals) (b : string) :
  exists children,
    update_table b g = (Ok children, g) /\
    table_rows children
    = filter (fun r => String.eqb (brand r) b) (records (df g)).
Proof.
  destruct (filter (fun r => String.eqb (brand r) b) (records (df g)))
    as [|r0 rs] eqn:E.
  - rewrite (update_table_no_data g b E). eexists. split; reflexivity.
  - rewrite update_table_shown; [|rewrite E; discriminate].
    eexists. split; [reflexivity|]. simpl. now rewrite app_nil_r.
Qed.

Lemma in_selection_spec (sel : list string) (lo hi : Z) (r : Row) :
  in_selection sel lo hi r = true
  <-> In (brand r) sel /\ lo <= model_year r <= hi.
Proof.
  unfold in_selection. rewrite !andb_true_iff, isin_In, !Z.leb_le. tauto.
Qed.

Lemma chart_keys (fig : Figure) (mean : list Q -> Q) (d : DataFrame)
      (sel : list string) :
  Permutation (figure_bars fig)
              (Pandas.groupby_mean mean
                 (Pandas.loc d (fun r => Pandas.isin (brand r) sel))) ->
  forall b t,
    In (b, t) (map fst (figure_bars fig))
    <-> exists r, In r (records d) /\ In (brand r) sel
                  /\ brand r = b /\ transmission r = t.
Proof.
  intros P b t.
  assert (Pk : Permutation (map fst (figure_bars fig))
                 (Pandas.group_keys
                    (filter (fun r => Pandas.isin (brand r) sel)
                            (records d)))).
  { change (filter _ (records d))
      with (records (Pandas.loc d (fun r => Pandas.isin (brand r) sel))).
    rewrite <- (groupby_mean_keys mean). now apply Permutation_map. }
  rewrite <- selected_key_In. split; apply Permutation_in;
    [exact Pk | apply Permutation_sym, Pk].
Qed.

(** X8.  On records whose transmissions are among fewer than 52 values,
    the mileage chart has a bar exactly when some record has a selected
    brand, and is the figure without data exactly when none has; the price
    graph has a point exactly when some record has a selected brand and a
    model year in the range, and is the figure without data exactly when
    none has. *)
Theorem figures_have_data_iff (mean : list Q -> Q) (g : Globals)
        (sel ts : list string) (lo hi : Z) (rest : list Z) :
  (forall r, In r (records (df g)) -> In (brand r) sel ->
             In (transmission r) ts) ->
  (List.length ts < 52)%nat ->
  exists chart graph,
    result (update_mileage_chart mean sel) g = Ok chart /\
    result (update_price_graph sel (lo :: hi :: rest)) g = Ok graph /\
    (figure_bars chart <> []
     <-> exists r, In r (records (df g)) /\ In (brand r) sel) /\
    (chart = no_data "No data available for selected brands"
     <-> forall r, In r (records (df g)) -> ~ In (brand r) sel) /\
    (figure_points graph <> []
     <-> exists r, In r (records (df g)) /\ In (brand r) sel
                   /\ lo <= model_year r <= hi) /\
    (graph = no_data "No data available for selected criteria"
     <-> forall r, In r (records (df g)) -> In (brand r) sel ->
                   ~ lo <= model_year r <= hi).
Proof.
  intros Hts Hlen.
  destruct (mileage_bars_perm mean g sel ts Hts Hlen) as [chart [Hc Pc]].
  destruct (price_points_perm g sel lo hi rest) as [graph [Hg Pg]].
  exists chart, graph. unfold result. rewrite Hc, Hg.
  split; [reflexivity|]. split; [reflexivity|].
  assert (Bars : figure_bars chart <> []
                 <-> exists r, In r (records (df g)) /\ In (brand r) sel).
  { rewrite <- (map_nonempty fst). split.
    - intros H.
      destruct (map fst (figure_bars chart)) as [|[b t] ks] eqn:E;
        [contradiction|].
      assert (Hk : In (b, t) (map fst (figure_bars chart)))
        by (rewrite E; now left).
      apply (chart_keys chart mean (df g) sel Pc) in Hk.
      destruct Hk as [r [Hr [Hs _]]]. now exists r.
    - intros [r [Hr Hs]] E.
      assert (Hk : In (brand r, transmission r)
                      (map fst (figure_bars chart))).
      { apply (chart_keys chart mean (df g) sel Pc). exists r. tauto. }
      now rewrite E in Hk. }
  assert (Points : figure_points graph <> []
                   <-> exists r, In r (records (df g)) /\ In (brand r) sel
                                 /\ lo <= model_year r <= hi).
  { rewrite (perm_nonempty _ _ Pg), (map_nonempty point_of_row).
    rewrite filter_nonempty.
    split; intros [r [Hr Hs]]; exists r; (split; [exact Hr|]);
      now apply in_selection_spec. }
  split; [exact Bars|]. split; [|split; [exact Points|]].
  - split.
    + intros -> r Hr Hb. apply (proj2 Bars); [now exists r | reflexivity].
    + intros H.
      rewrite update_mileage_chart_no_data in Hc; [congruence|].
      destruct (filter (fun r => Pandas.isin (brand r) sel) (records (df g)))
        as [|r rs] eqn:E; [reflexivity|].
      assert (Hr : In r (r :: rs)) by now left.
      rewrite <- E in Hr. apply filter_In in Hr. destruct Hr as [Hr Hb].
      apply isin_In in Hb. now apply H in Hr.
  - split.
    + intros -> r Hr Hb Hy.
      apply (proj2 Points); [now exists r | reflexivity].
    + intros H.
      rewrite update_price_graph_no_data in Hg; [congruence|].
      destruct (filter (in_selection sel lo hi) (records (df g)))
        as [|r rs] eqn:E; [reflexivity|].
      assert (Hr : In r (r :: rs)) by now left.
      rewrite <- E in Hr. apply filter_In in Hr. destruct Hr as [Hr Hb].
      apply in_selection_spec in Hb. destruct Hb as [Hb Hy].
      exfalso. exact (H r Hr Hb Hy).
Qed.

Lemma figures_have_data_iff_witness :
  (forall r, In r (records ford_and_audis) -> In (brand r) ["Audi"] ->
             In (transmission r) ["automatic"; "manual"]) /\
  (List.length ["automatic"; "manual"] < 52)%nat /\
  exists chart graph,
    result (update_mileage_chart exact_mean ["Audi"])
           (mkGlobals ford_and_audis palette) = Ok chart /\
    result (update_price_graph ["Audi"] [2018; 2020])
           (mkGlobals ford_and_audis palette) = Ok graph /\
    (figure_bars chart <> []
     <-> exists r, In r (records ford_and_audis) /\ In (brand r) ["Audi"]) /\
    (chart = no_data "No data available for selected brands"
     <-> forall r, In r (records ford_and_audis) ->
                   ~ In (brand r) ["Audi"]) /\
    (figure_points graph <> []
     <-> exists r, In r (records ford_and_audis) /\ In (brand r) ["Audi"]
                   /\ 2018 <= model_year r <= 2020) /\
    (graph = no_data "No data available for selected criteria"
     <-> forall r, In r (records ford_and_audis) -> In (brand r) ["Audi"] ->
                   ~ 2018 <= model_year r <= 2020).
Proof.
  assert (H1 : forall r, In r (records ford_and_audis) ->
                         In (brand r) ["Audi"] ->
                         In (transmission r) ["automatic"; "manual"]).
  { simpl. intros r [<-|[<-|[<-|[]]]] _; simpl; tauto. }
  assert (H2 : (List.length ["automatic"; "manual"] < 52)%nat)
    by (simpl; lia).
  split; [exact H1|]. split; [exact H2|].
  exact (figures_have_data_iff exact_mean (mkGlobals ford_and_audis palette)
           ["Audi"] ["automatic"; "manual"] 2018 2020 [] H1 H2).
Defined.

(** ** The layout and the callbacks together *)



(** X10.  Selecting more brands or widening the year range never removes a
    point from the price graph. *)
Theorem price_graph_points_monotone (g : Globals) (sel1 sel2 : list string)
        (lo1 hi1 lo2 hi2 : Z) :
  (forall b, In b sel1 -> In b sel2) -> lo2 <= lo1 -> hi1 <= hi2 ->
  exists graph1 graph2,
    result (update_price_graph sel1 [lo1; hi1]) g = Ok graph1 /\
    result (update_price_graph sel2 [lo2; hi2]) g = Ok graph2 /\
    forall p, In p (figure_points graph1) -> In p (figure_points graph2).
Proof.
  intros Hsel Hlo Hhi.
  destruct (price_points_perm g sel1 lo1 hi1 []) as [graph1 [H1 P1]].
  destruct (price_points_perm g sel2 lo2 hi2 []) as [graph2 [H2 P2]].
  exists graph1, graph2. unfold result. rewrite H1, H2.
  split; [reflexivity|]. split; [reflexivity|].
  intros p Hp. apply (Permutation_in _ P1) in Hp.
  apply (Permutation_in _ (Permutation_sym P2)).
  apply in_map_iff in Hp. destruct Hp as [r [<- Hr]].
  apply in_map. apply filter_In in Hr. destruct Hr as [Hr Hs].
  apply filter_In. split; [exact Hr|].
  apply in_selection_spec in Hs. apply in_selection_spec.
  destruct Hs as [Hb Hy]. split; [now apply Hsel | lia].
Qed.

Lemma price_graph_points_monotone_witness :
  (forall b, In b ["Ford"] -> In b ["Ford"; "Audi"]) /\
  2010 <= 2015 /\ 2016 <= 2020 /\
  exists graph1 graph2,
    result (update_price_graph ["Ford"] [2015; 2016])
           (mkGlobals ford_and_audis palette) = Ok graph1 /\
    result (update_price_graph ["Ford"; "Audi"] [2010; 2020])
           (mkGlobals ford_and_audis palette) = Ok graph2 /\
    forall p, In p (figure_points graph1) -> In p (figure_points graph2).
Proof.
  assert (H : forall b, In b ["Ford"] -> In b ["Ford"; "Audi"])
    by (simpl; tauto).
  assert (H1 : 2010 <= 2015) by lia.
  assert (H2 : 2016 <= 2020) by lia.
  split; [exact H|]. split; [exact H1|]. split; [exact H2|].
  exact (price_graph_points_monotone (mkGlobals ford_and_audis palette)
           ["Ford"] ["Ford"; "Audi"] 2015 2016 2010 2020 H H1 H2).
Defined.

(** The narrow query of the witness has a point, the Ford of 2015, and the
    wide query has it among its three. *)
Example narrow_and_wide_points :
  exists graph1 graph2,
    result (update_price_graph ["Ford"] [2015; 2016])
           (mkGlobals ford_and_audis palette) = Ok graph1 /\
    result (update_price_graph ["Ford"; "Audi"] [2010; 2020])
           (mkGlobals ford_and_audis palette) = Ok graph2 /\
    figure_points graph1 = [ mkPoint 2015 (10000 # 1) "Ford" "Focus" ] /\
    figure_points graph2
    = [ mkPoint 2015 (10000 # 1) "Ford" "Focus";
        mkPoint 2017 (21000 # 1) "Audi" "A4";
        mkPoint 2018 (18000 # 1) "Audi" "A3" ].
Proof. do 2 eexists. repeat split; vm_compute; reflexivity. Qed.

(** X11.  On a frame with records whose transmissions are among fewer
    than 52 values, the three views have data at start-up: run on the
    default values of the layout, the mileage chart has a bar, the price
    graph has a point and the table has a row. *)
Theorem initial_views_have_data
        (lower : string -> string) (mean : list Q -> Q)
        (d : DataFrame) (ts : list string) :
  records d <> [] ->
  (forall r, In r (records d) -> In (transmission r) ts) ->
  (List.length ts < 52)%nat ->
  exists app sel b chart graph children,
    load_app lower d = Ok app /\
    dd_value (brand_dropdown_multi (layout app)) = Multi sel /\
    dd_value (brand_dropdown_single (layout app)) = Single b /\
    result (update_mileage_chart mean sel) (app_globals app) = Ok chart /\
    figure_bars chart <> [] /\
    result (update_price_graph sel
              (rs_value (year_range_slider (layout app))))
           (app_globals app) = Ok graph /\
    figure_points graph <> [] /\
    result (update_table b) (app_globals app) = Ok children /\
    table_rows children <> [].
Proof.
  intros Hne Hts Hlen.
  destruct (load_app_fields lower d Hne)
    as [app [Hload [Hg [_ [Hfirst [Hmin [Hmax [_ [_ Hlay]]]]]]]]].
  destruct (series_min_spec _ _ Hmin) as [_ Hlo].
  destruct (series_max_spec _ _ Hmax) as [_ Hhi].
  assert (Hin : In (first_brand app) (sorted_brands_of lower d))
    by (eapply nth_error_In; exact Hfirst).
  apply sorted_brands_of_In in Hin. destruct Hin as [r [Hr Hb]].
  set (sel := [first_brand app]).
  assert (Hsel : In (brand r) sel) by (rewrite Hb; now left).
  destruct (mileage_bars_perm mean (mkGlobals d palette) sel ts)
    as [chart [Hc Pc]]; [intros r' Hr' _; now apply Hts | exact Hlen |].
  destruct (price_points_perm (mkGlobals d palette) sel
                              (min_year app) (max_year app) [])
    as [graph [Hp Pg]].
  destruct (update_table_rows (mkGlobals d palette) (first_brand app))
    as [children [Ht Rt]].
  exists app, sel, (first_brand app), chart, graph, children.
  rewrite Hlay, Hg. cbn [brand_dropdown_multi brand_dropdown_single
    year_range_slider dd_value rs_value]. unfold result.
  rewrite Hc, Hp, Ht. cbn [fst mkGlobals df] in *.
  split; [exact Hload|]. do 3 (split; [reflexivity|]).
  split; [|split; [reflexivity|split; [|split; [reflexivity|]]]].
  - rewrite <- (map_nonempty fst). intros E.
    assert (Hk : In (brand r, transmission r) (map fst (figure_bars chart))).
    { apply (chart_keys chart mean d sel Pc). exists r. tauto. }
    now rewrite E in Hk.
  - rewrite (perm_nonempty _ _ Pg), (map_nonempty point_of_row).
    apply filter_nonempty. exists r. split; [exact Hr|].
    apply in_selection_spec. split; [exact Hsel|].
    split; [apply Hlo | apply Hhi]; exact (in_map model_year _ r Hr).
  - rewrite Rt. apply filter_nonempty. exists r.
    split; [exact Hr | now apply String.eqb_eq].
Qed.

Lemma initial_views_have_data_witness :
  records mixed_case_cars <> [] /\
  (forall r, In r (records mixed_case_cars) ->
             In (transmission r) ["automatic"; "manual"]) /\
  (List.length ["automatic"; "manual"] < 52)%nat /\
  exists app sel b chart graph children,
    load_app PyStr.ascii_lower mixed_case_cars = Ok app /\
    dd_value (brand_dropdown_multi (layout app)) = Multi sel /\
    dd_value (brand_dropdown_single (layout app)) = Single b /\
    result (update_mileage_chart exact_mean sel) (app_globals app)
    = Ok chart /\
    figure_bars chart <> [] /\
    result (update_price_graph sel
              (rs_value (year_range_slider (layout app))))
           (app_globals app) = Ok graph /\
    figure_points graph <> [] /\
    result (update_table b) (app_globals app) = Ok children /\
    table_rows children <> [].
Proof.
  assert (H : records mixed_case_cars <> []) by discriminate.
  assert (H1 : forall r, In r (records mixed_case_cars) ->
                         In (transmission r) ["automatic"; "manual"]).
  { simpl. intros r [<-|[<-|[<-|[]]]]; simpl; tauto. }
  assert (H2 : (List.length ["automatic"; "manual"] < 52)%nat)
    by (simpl; lia).
  split; [exact H|]. split; [exact H1|]. split; [exact H2|].
  exact (initial_views_have_data PyStr.ascii_lower exact_mean
           mixed_case_cars ["automatic"; "manual"] H H1 H2).
Defined.

(** X12.  Every brand the dropdowns offer has a table with at least one
    row, and the tables of the offered brands, taken together, hold every
    record of the dataset exactly once. *)
Theorem tables_of_options_partition_dataset
        (lower : string -> string) (g : Globals) :
  exists tables,
    Forall2 (fun b children =>
               result (update_table b) g = Ok children
               /\ table_rows children <> [])
            (sorted_brands_of lower (df g)) tables /\
    Permutation (flat_map table_rows tables) (records (df g)).
Proof.
  assert (G : forall bs,
             (forall b, In b bs -> In b (sorted_brands_of lower (df g))) ->
             exists tables,
               Forall2 (fun b children =>
                          result (update_table b) g = Ok children
                          /\ table_rows children <> []) bs tables /\
               flat_map table_rows tables
               = flat_map (rows_with brand String.eqb (records (df g))) bs).
  { induction bs as [|b bs IH]; intros Hbs.
    - exists []. split; [constructor | reflexivity].
    - destruct IH as [tables [F E]];
        [intros b' Hb'; apply Hbs; now right|].
      destruct (update_table_rows g b) as [children [Ht Rt]].
      exists (children :: tables). split.
      + constructor; [|exact F]. unfold result. rewrite Ht.
        split; [reflexivity|]. rewrite Rt. apply filter_nonempty.
        assert (Hb : In b (sorted_brands_of lower (df g)))
          by (apply Hbs; now left).
        apply sorted_brands_of_In in Hb. destruct Hb as [r [Hr Hb]].
        exists r. split; [exact Hr | now apply String.eqb_eq].
      + simpl. now rewrite E, Rt. }
  destruct (G (sorted_brands_of lower (df g)) (fun b Hb => Hb)) as [tables [F E]].
  exists tables. split; [exact F|]. rewrite E.
  apply (groups_perm brand String.eqb String.eqb_eq).
  - apply sort_NoDup, unique_NoDup, String.eqb_eq.
  - intros r Hr. apply sorted_brands_of_In. now exists r.
Qed.


(** ** Traces and colours *)

Lemma px_scatter_names (frame : DataFrame) (xl yl : string)
      (sequence : list string) :
  map trace_name (data (px_scatter frame xl yl sequence))
  = Pandas.unique String.eqb (map brand (records frame)).
Proof.
  unfold px_scatter. simpl. rewrite map_map.
  rewrite (map_enumerate (fun c => c)); [|reflexivity].
  apply map_id.
Qed.

Lemma px_scatter_colors (frame : DataFrame) (xl yl : string)
      (sequence : list string) :
  map trace_color (data (px_scatter frame xl yl sequence))
  = map (cycle sequence)
        (seq 0 (List.length (data (px_scatter frame xl yl sequence)))).
Proof.
  unfold px_scatter. simpl. rewrite length_map, length_enumerate, map_map.
  simpl. rewrite <- map_fst_enumerate. now rewrite map_map.
Qed.

Lemma graph_traces (g : Globals) (sel : list string)
      (lo hi : Z) (rest : list Z) :
  exists fig,
    update_price_graph sel (lo :: hi :: rest) g = (Ok fig, with_figure g fig) /\
    map trace_name (data fig)
    = Pandas.unique String.eqb
        (map brand (filter (in_selection sel lo hi) (records (df g)))) /\
    map trace_color (data fig)
    = map (cycle (colors g)) (seq 0 (List.length (data fig))).
Proof.
  destruct (filter (in_selection sel lo hi) (records (df g)))
    as [|r0 rs] eqn:E.
  - rewrite update_price_graph_no_data; [|exact E]. eexists.
    split; [reflexivity|]. split; reflexivity.
  - rewrite update_price_graph_shown; [|rewrite E; discriminate].
    eexists. split; [reflexivity|].
    cbn [data update_title update_bgcolor update_xaxes].
    rewrite px_scatter_names, px_scatter_colors.
    unfold Pandas.loc. cbn [records]. rewrite E. split; reflexivity.
Qed.

(** X13.  The traces of the price graph are the brands of the records it
    keeps, each brand once, in the order in which the brands first appear
    in the dataset; the i-th trace has the colour at position i mod 6 of
    the palette. *)
Theorem price_graph_traces_by_first_appearance
        (d : DataFrame) (sel : list string) (lo hi : Z) (rest : list Z) :
  exists graph,
    result (update_price_graph sel (lo :: hi :: rest)) (mkGlobals d palette)
    = Ok graph /\
    map trace_name (data graph)
    = Pandas.unique String.eqb
        (map brand (filter (in_selection sel lo hi) (records d))) /\
    NoDup (map trace_name (data graph)) /\
    (forall b, In b (map trace_name (data graph))
               <-> exists r, In r (records d) /\ brand r = b /\ In b sel
                             /\ lo <= model_year r <= hi) /\
    map trace_color (data graph)
    = map (fun i => nth (i mod 6) palette EmptyString)
          (seq 0 (List.length (data graph))).
Proof.
  destruct (graph_traces (mkGlobals d palette) sel lo hi rest)
    as [graph [Hrun [Hn Hc]]].
  exists graph. unfold result. rewrite Hrun. cbn [mkGlobals df colors] in *.
  split; [reflexivity|]. split; [exact Hn|].
  split; [rewrite Hn; apply unique_NoDup, String.eqb_eq|].
  split; [|exact Hc].
  intros b. rewrite Hn, (unique_In _ String.eqb_eq), in_map_iff. split.
  - intros [r [Hb Hr]]. apply filter_In in Hr. destruct Hr as [Hr Hs].
    apply in_selection_spec in Hs. exists r. subst b. tauto.
  - intros [r [Hr [Hb [Hs Hy]]]]. exists r. split; [exact Hb|].
    apply filter_In. split; [exact Hr|]. apply in_selection_spec.
    subst b. tauto.
Qed.

Lemma palette_nth_inj (i j : nat) :
  (i < 6)%nat -> (j < 6)%nat ->
  nth i palette EmptyString = nth j palette EmptyString -> i = j.
Proof.
  intros Hi Hj.
  do 6 (destruct i as [|i]; [do 6 (destruct j as [|j];
           [simpl; try reflexivity; discriminate|]); lia|]).
  lia.
Qed.

Lemma cycled_colors_repeat (fig : Figure) :
  map trace_color (data fig)
  = map (cycle palette) (seq 0 (List.length (data fig))) ->
  forall i j ti tj,
    nth_error (data fig) i = Some ti -> nth_error (data fig) j = Some tj ->
    (trace_color ti = trace_color tj <-> (i mod 6 = j mod 6)%nat).
Proof.
  intros Hc i j ti tj Hi Hj.
  assert (C : forall k t, nth_error (data fig) k = Some t ->
                          trace_color t = nth (k mod 6) palette EmptyString).
  { intros k t Hk.
    assert (Hlt : (k < List.length (data fig))%nat)
      by (apply nth_error_Some; congruence).
    pose proof (map_nth_error trace_color k (data fig) Hk) as H1.
    rewrite Hc in H1.
    rewrite (map_nth_error (cycle palette) k (seq 0 (List.length (data fig)))
               (d := k)) in H1.
    - injection H1 as H1. symmetry. exact H1.
    - rewrite nth_error_nth' with (d := 0%nat) by (rewrite length_seq; lia).
      now rewrite seq_nth. }
  rewrite (C i ti Hi), (C j tj Hj). split.
  - apply palette_nth_inj; apply Nat.mod_upper_bound; lia.
  - now intros ->.
Qed.

(** X14.  In the mileage chart, on records whose transmissions are among
    fewer than 52 values, and in the price graph two traces have the same
    colour exactly when their positions agree modulo 6: up to six
    categories are told apart by colour, and the seventh repeats the
    first. *)
Theorem trace_colors_repeat_every_six
        (mean : list Q -> Q) (d : DataFrame) (sel ts : list string)
        (lo hi : Z) (rest : list Z) :
  (forall r, In r (records d) -> In (brand r) sel ->
             In (transmission r) ts) ->
  (List.length ts < 52)%nat ->
  exists chart graph,
    result (update_mileage_chart mean sel) (mkGlobals d palette) = Ok chart /\
    result (update_price_graph sel (lo :: hi :: rest)) (mkGlobals d palette)
    = Ok graph /\
    (forall i j ti tj,
        nth_error (data chart) i = Some ti ->
        nth_error (data chart) j = Some tj ->
        (trace_color ti = trace_color tj <-> (i mod 6 = j mod 6)%nat)) /\
    (forall i j ti tj,
        nth_error (data graph) i = Some ti ->
        nth_error (data graph) j = Some tj ->
        (trace_color ti = trace_color tj <-> (i mod 6 = j mod 6)%nat)).
Proof.
  intros Hts Hlen.
  destruct (chart_traces mean (mkGlobals d palette) sel ts Hts Hlen)
    as [chart [Hc [_ Cc]]].
  destruct (graph_traces (mkGlobals d palette) sel lo hi rest)
    as [graph [Hg [_ Cg]]].
  exists chart, graph. unfold result. rewrite Hc, Hg.
  split; [reflexivity|]. split; [reflexivity|].
  split; apply cycled_colors_repeat; assumption.
Qed.

Lemma trace_colors_repeat_every_six_witness :
  (forall r, In r (records ford_and_audis) -> In (brand r) ["Audi"; "Ford"] ->
             In (transmission r) ["automatic"; "manual"]) /\
  (List.length ["automatic"; "manual"] < 52)%nat /\
  exists chart graph,
    result (update_mileage_chart exact_mean ["Audi"; "Ford"])
           (mkGlobals ford_and_audis palette) = Ok chart /\
    result (update_price_graph ["Audi"; "Ford"] [2010; 2020])
           (mkGlobals ford_and_audis palette) = Ok graph /\
    (forall i j ti tj,
        nth_error (data chart) i = Some ti ->
        nth_error (data chart) j = Some tj ->
        (trace_color ti = trace_color tj <-> (i mod 6 = j mod 6)%nat)) /\
    (forall i j ti tj,
        nth_error (data graph) i = Some ti ->
        nth_error (data graph) j = Some tj ->
        (trace_color ti = trace_color tj <-> (i mod 6 = j mod 6)%nat)).
Proof.
  assert (H1 : forall r, In r (records ford_and_audis) ->
                         In (brand r) ["Audi"; "Ford"] ->
                         In (transmission r) ["automatic"; "manual"]).
  { simpl. intros r [<-|[<-|[<-|[]]]] _; simpl; tauto. }
  assert (H2 : (List.length ["automatic"; "manual"] < 52)%nat)
    by (simpl; lia).
  split; [exact H1|]. split; [exact H2|].
  exact (trace_colors_repeat_every_six exact_mean ford_and_audis
           ["Audi"; "Ford"] ["automatic"; "manual"] 2010 2020 [] H1 H2).
Defined.

(** X15.  In the mileage chart, on records whose transmissions are among
    fewer than 52 values, the traces are exactly the transmissions of the
    selected records, one trace each; every trace has at least one bar, as
    many heights as brands, and its brands are exactly the selected brands
    with a record of that transmission, in strictly increasing order of
    their text, so that no brand is drawn twice in one facet. *)
Theorem mileage_chart_facets (mean : list Q -> Q) (g : Globals)
        (sel ts : list string) :
  (forall r, In r (records (df g)) -> In (brand r) sel ->
             In (transmission r) ts) ->
  (List.length ts < 52)%nat ->
  exists chart,
    result (update_mileage_chart mean sel) g = Ok chart /\
    NoDup (map trace_name (data chart)) /\
    (forall t,
        In t (map trace_name (data chart))
        <-> exists r, In r (records (df g)) /\ In (brand r) sel
                      /\ transmission r = t) /\
    Forall (fun tr =>
              exists name color x y,
                tr = Bar name color x y /\ x <> [] /\
                List.length x = List.length y /\
                StronglySorted (fun a b => String.ltb a b = true) x /\
                (forall b,
                    In b x
                    <-> exists r, In r (records (df g)) /\ In (brand r) sel
                                  /\ brand r = b /\ transmission r = name))
           (data chart).
Proof.
  intros Hts Hlen.
  destruct (chart_traces mean g sel ts Hts Hlen) as [chart [Hrun [Hn _]]].
  exists chart. unfold result. rewrite Hrun. split; [reflexivity|].
  split; [rewrite Hn; apply unique_NoDup, String.eqb_eq|].
  split.
  { intros t. rewrite Hn, (unique_In _ String.eqb_eq).
    apply selected_transmission_In. }
  destruct (filter (fun r => Pandas.isin (brand r) sel) (records (df g)))
    as [|r0 rs] eqn:E.
  - rewrite (update_mileage_chart_no_data mean g sel E) in Hrun.
    injection Hrun as <-. constructor.
  - destruct (px_bar_returns _
                "Average Mileage by Vehicle Brand and Transmission Type"
                "Brand" "Average Mileage (mi)" (colors g)
                (selected_facets_fit mean (df g) sel ts Hts Hlen))
      as [built Hb].
    destruct (update_mileage_chart_built mean g sel built)
      as [fig [Hrun' [Hdata _]]]; [rewrite E; discriminate | exact Hb |].
    assert (fig = chart) by congruence. subst fig. rewrite Hdata.
    unfold px_bar in Hb. destruct (too_many_facets _); [discriminate|].
    injection Hb as <-. cbn [data].
    set (frame := Pandas.loc (df g) (fun r => Pandas.isin (brand r) sel)).
    apply Forall_forall. intros tr Htr. apply in_map_iff in Htr.
    destruct Htr as [[i c] [<- Hic]]. cbn [fst snd].
    do 4 eexists. split; [reflexivity|].
    apply in_combine_r in Hic.
    apply (proj1 (unique_In String.eqb String.eqb_eq _ _)) in Hic.
    assert (Hx : map (fun b : string * string * Q => fst (fst b))
                     (filter (fun b => String.eqb (snd (fst b)) c)
                             (Pandas.groupby_mean mean frame))
                 = map fst (filter (fun k => String.eqb (snd k) c)
                                   (Pandas.group_keys (records frame)))).
    { unfold Pandas.groupby_mean. now rewrite filter_map_swap, map_map. }
    split; [|split; [|split]].
    + rewrite map_nonempty. apply filter_nonempty.
      apply in_map_iff in Hic. destruct Hic as [b [Hb Hin]].
      exists b. split; [exact Hin | now apply String.eqb_eq].
    + now rewrite !length_map.
    + rewrite Hx.
      apply (facet_brands_increasing (Pandas.group_keys (records frame)) c).
      * apply group_keys_sorted.
      * apply group_keys_NoDup.
    + intros b. rewrite Hx, in_map_iff.
      unfold frame, Pandas.loc. cbn [records]. split.
      * intros [[b' t'] [Hb Hk]]. simpl in Hb. subst b'.
        apply filter_In in Hk. destruct Hk as [Hk Ht]. simpl in Ht.
        apply String.eqb_eq in Ht. subst t'.
        now apply selected_key_In in Hk.
      * intros H. exists (b, c). split; [reflexivity|].
        apply filter_In. split; [now apply selected_key_In|].
        apply String.eqb_refl.
Qed.

Lemma mileage_chart_facets_witness :
  (forall r, In r (records ford_and_audis) -> In (brand r) ["Audi"; "Ford"] ->
             In (transmission r) ["automatic"; "manual"]) /\
  (List.length ["automatic"; "manual"] < 52)%nat /\
  exists chart,
    result (update_mileage_chart exact_mean ["Audi"; "Ford"])
           (mkGlobals ford_and_audis palette) = Ok chart /\
    NoDup (map trace_name (data chart)) /\
    (forall t,
        In t (map trace_name (data chart))
        <-> exists r, In r (records ford_and_audis)
                      /\ In (brand r) ["Audi"; "Ford"]
                      /\ transmission r = t) /\
    Forall (fun tr =>
              exists name color x y,
                tr = Bar name color x y /\ x <> [] /\
                List.length x = List.length y /\
                StronglySorted (fun a b => String.ltb a b = true) x /\
                (forall b,
                    In b x
                    <-> exists r, In r (records ford_and_audis)
                                  /\ In (brand r) ["Audi"; "Ford"]
                                  /\ brand r = b /\ transmission r = name))
           (data chart).
Proof.
  assert (H1 : forall r, In r (records ford_and_audis) ->
                         In (brand r) ["Audi"; "Ford"] ->
                         In (transmission r) ["automatic"; "manual"]).
  { simpl. intros r [<-|[<-|[<-|[]]]] _; simpl; tauto. }
  assert (H2 : (List.length ["automatic"; "manual"] < 52)%nat)
    by (simpl; lia).
  split; [exact H1|]. split; [exact H2|].
  exact (mileage_chart_facets exact_mean (mkGlobals ford_and_audis palette)
           ["Audi"; "Ford"] ["automatic"; "manual"] H1 H2).
Defined.

(** The chart of the witness: the automatic Audi in one facet, the manual
    Audi and the manual Ford, in this order, in the other. *)
Example audi_and_ford_facets :
  exists chart,
    result (update_mileage_chart exact_mean ["Audi"; "Ford"])
           (mkGlobals ford_and_audis palette) = Ok chart /\
    data chart
    = [ Bar "automatic" "#EF553B" ["Audi"] [(30000 # 1)%Q];
        Bar "manual" "#377eb8" ["Audi"; "Ford"]
            [(20000 # 1)%Q; (50000 # 1)%Q] ].
Proof. eexists. split; vm_compute; reflexivity. Qed.

(** ** Too many facets *)

(** X16.  When the selected records carry 52 or more distinct
    transmissions the mileage chart raises [ValueError], as [px.bar] does
    for a row of that many facets; no figure is returned and the state is
    unchanged. *)
Theorem mileage_chart_raises_on_many_transmissions
        (mean : list Q -> Q) (g : Globals) (sel ts : list string) :
  NoDup ts ->
  (52 <= List.length ts)%nat ->
  (forall t, In t ts ->
             exists r, In r (records (df g)) /\ In (brand r) sel
                       /\ transmission r = t) ->
  update_mileage_chart mean sel g = (Raise ValueError, g).
Proof.
  intros Hnd Hlen Hocc.
  apply update_mileage_chart_raises.
  - destruct ts as [|t0 ts']; [simpl in Hlen; lia|].
    destruct (Hocc t0 (or_introl eq_refl)) as [r [Hr [Hs _]]].
    apply filter_nonempty. exists r. split; [exact Hr | now apply isin_In].
  - apply px_bar_raises. eapply Nat.le_trans; [exact Hlen|].
    apply NoDup_incl_length; [exact Hnd|].
    intros t Ht. apply (unique_In String.eqb String.eqb_eq).
    rewrite <- (map_map fst snd), groupby_mean_keys.
    unfold Pandas.loc. cbn [records].
    apply selected_transmission_In. now apply Hocc.
Qed.

Lemma many_transmissions_distinct :
  NoDup (map PyStr.str_of_int (py_range 0 52)).
Proof.
  vm_compute.
  repeat (constructor; [simpl; intuition discriminate|]). constructor.
Qed.

Lemma mileage_chart_raises_on_many_transmissions_witness :
  NoDup (map PyStr.str_of_int (py_range 0 52)) /\
  (52 <= List.length (map PyStr.str_of_int (py_range 0 52)))%nat /\
  (forall t, In t (map PyStr.str_of_int (py_range 0 52)) ->
             exists r, In r (records many_transmissions)
                       /\ In (brand r) ["Ford"] /\ transmission r = t) /\
  update_mileage_chart exact_mean ["Ford"]
                       (mkGlobals many_transmissions palette)
  = (Raise ValueError, mkGlobals many_transmissions palette).
Proof.
  assert (H1 : NoDup (map PyStr.str_of_int (py_range 0 52)))
    by exact many_transmissions_distinct.
  assert (H2 : (52 <= List.length (map PyStr.str_of_int (py_range 0 52)))%nat)
    by (vm_compute; lia).
  assert (H3 : forall t, In t (map PyStr.str_of_int (py_range 0 52)) ->
                 exists r, In r (records many_transmissions)
                           /\ In (brand r) ["Ford"] /\ transmission r = t).
  { intros t Ht. apply in_map_iff in Ht. destruct Ht as [i [<- Hi]].
    exists (mkRow "Ford" "Focus" 2015 (50000 # 1) (10000 # 1)
                  (PyStr.str_of_int i)).
    split; [|split; [now left | reflexivity]].
    unfold many_transmissions. cbn [records].
    exact (in_map _ _ i Hi). }
  split; [exact H1|]. split; [exact H2|]. split; [exact H3|].
  exact (mileage_chart_raises_on_many_transmissions exact_mean
           (mkGlobals many_transmissions palette) ["Ford"]
           (map PyStr.str_of_int (py_range 0 52)) H1 H2 H3).
Defined.

(** ** The two figures of the multi-select dropdown *)

(** X17.  For one selection of brands, on records whose transmissions are
    among fewer than 52 values, every brand with a trace in the price graph
    has a bar in the mileage chart, whatever the year range; and when the
    range spans the model years of all records, the brands of the two
    figures are the same. *)
Theorem graph_brands_within_chart_brands
        (mean : list Q -> Q) (g : Globals) (sel ts : list string)
        (lo hi : Z) (rest : list Z) :
  (forall r, In r (records (df g)) -> In (brand r) sel ->
             In (transmission r) ts) ->
  (List.length ts < 52)%nat ->
  exists chart graph,
    result (update_mileage_chart mean sel) g = Ok chart /\
    result (update_price_graph sel (lo :: hi :: rest)) g = Ok graph /\
    (forall b, In b (map trace_name (data graph)) ->
               In b (map (fun bar => fst (fst bar)) (figure_bars chart))) /\
    ((forall r, In r (records (df g)) -> lo <= model_year r <= hi) ->
     forall b, In b (map (fun bar => fst (fst bar)) (figure_bars chart)) ->
               In b (map trace_name (data graph))).
Proof.
  intros Hts Hlen.
  destruct (mileage_bars_perm mean g sel ts Hts Hlen) as [chart [Hc Pc]].
  destruct (graph_traces g sel lo hi rest) as [graph [Hg [Hn _]]].
  exists chart, graph. unfold result. rewrite Hc, Hg.
  split; [reflexivity|]. split; [reflexivity|].
  assert (Brands : forall b,
             In b (map (fun bar => fst (fst bar)) (figure_bars chart))
             <-> exists r, In r (records (df g)) /\ brand r = b /\ In b sel).
  { intros b. rewrite <- (map_map fst fst), in_map_iff. split.
    - intros [[b' t] [Hb Hk]]. simpl in Hb. subst b'.
      apply (chart_keys chart mean (df g) sel Pc) in Hk.
      destruct Hk as [r [Hr [Hs [Hb _]]]]. exists r. subst b. tauto.
    - intros [r [Hr [Hb Hs]]]. exists (b, transmission r).
      split; [reflexivity|].
      apply (chart_keys chart mean (df g) sel Pc). exists r.
      subst b. tauto. }
  split.
  - intros b Hb. rewrite Hn in Hb.
    apply (proj1 (unique_In String.eqb String.eqb_eq _ _)) in Hb.
    apply in_map_iff in Hb. destruct Hb as [r [Hb Hr]].
    apply filter_In in Hr. destruct Hr as [Hr Hs].
    apply in_selection_spec in Hs.
    apply Brands. exists r. subst b. tauto.
  - intros Hall b Hb. apply Brands in Hb.
    destruct Hb as [r [Hr [Hb Hs]]]. rewrite Hn.
    apply (unique_In String.eqb String.eqb_eq). apply in_map_iff.
    exists r. split; [exact Hb|]. apply filter_In. split; [exact Hr|].
    apply in_selection_spec. subst b. split; [exact Hs | now apply Hall].
Qed.

Lemma graph_brands_within_chart_brands_witness :
  (forall r, In r (records ford_and_audis) -> In (brand r) ["Audi"; "Ford"] ->
             In (transmission r) ["automatic"; "manual"]) /\
  (List.length ["automatic"; "manual"] < 52)%nat /\
  exists chart graph,
    result (update_mileage_chart exact_mean ["Audi"; "Ford"])
           (mkGlobals ford_and_audis palette) = Ok chart /\
    result (update_price_graph ["Audi"; "Ford"] [2017; 2018])
           (mkGlobals ford_and_audis palette) = Ok graph /\
    (forall b, In b (map trace_name (data graph)) ->
               In b (map (fun bar => fst (fst bar)) (figure_bars chart))) /\
    ((forall r, In r (records ford_and_audis) ->
                2017 <= model_year r <= 2018) ->
     forall b, In b (map (fun bar => fst (fst bar)) (figure_bars chart)) ->
               In b (map trace_name (data graph))).
Proof.
  assert (H1 : forall r, In r (records ford_and_audis) ->
                         In (brand r) ["Audi"; "Ford"] ->
                         In (transmission r) ["automatic"; "manual"]).
  { simpl. intros r [<-|[<-|[<-|[]]]] _; simpl; tauto. }
  assert (H2 : (List.length ["automatic"; "manual"] < 52)%nat)
    by (simpl; lia).
  split; [exact H1|]. split; [exact H2|].
  exact (graph_brands_within_chart_brands exact_mean
           (mkGlobals ford_and_audis palette) ["Audi"; "Ford"]
           ["automatic"; "manual"] 2017 2018 [] H1 H2).
Defined.

(** ** The examples of the specification, run *)

Example two_fords_bars :
  exists fig,
    result (update_mileage_chart exact_mean ["Ford"])
           (mkGlobals two_fords palette)
    = Ok fig /\
    figure_bars fig
    = [ ("Ford", "automatic", (50000 # 1)%Q);
        ("Ford", "manual", (20000 # 1)%Q) ].
Proof. eexists. split; vm_compute; reflexivity. Qed.

Example two_fords_one_point :
  exists fig,
    result (update_price_graph ["Ford"] [2016; 2020])
           (mkGlobals two_fords palette) = Ok fig /\
    figure_points fig = [ mkPoint 2018 (18000 # 1) "Ford" "Fiesta" ].
Proof. eexists. split; vm_compute; reflexivity. Qed.

(** The brand is matched character for character: lower-case "ford" is
    not a brand of the two Fords. *)
Example table_match_is_case_sensitive :
  result (update_table "ford") (mkGlobals two_fords palette)
  = Ok [ H6 "No data available for ford"
            [("text-align", "center"); ("font-weight", "400");
             ("font-size", "16px")] ].
Proof. reflexivity. Qed.

(** A year list with fewer than two entries makes the price callback
    raise, before any figure is built. *)
Example short_year_list_raises :
  result (update_price_graph ["Ford"] [2016]) (mkGlobals two_fords palette)
  = Raise IndexError.
Proof. reflexivity. Qed.

(** On a frame without records the module body raises at
    [sorted_brands[0]]. *)
Example empty_frame_raises :
  load_app PyStr.ascii_lower (mkDataFrame six_columns [])
  = Raise IndexError.
Proof. reflexivity. Qed.
